(** * SoundWaveFactory (numpy_task_impl.py): waveform synthesis, quantization
      and peak normalization

    The Python class [SoundWaveFactory] is embedded function by function.
    NumPy's float64 arithmetic is reached through the interface [Scalar]
    (and [Libm] for the transcendental functions), so that one and the
    same embedding of the code can be

    - run bit-exactly on IEEE binary64 (Rocq's primitive floats), which is
      where division by zero yields NaN and where concrete buffers are
      evaluated, and
    - read over the real numbers, which is where the mathematical
      statements about sine waves and peaks are proved.

    Python exceptions are values of [exn]; a call that may raise returns a
    [result].  The only side effect, [wavfile.write], acts on an explicit
    [disk] that is threaded through [create_wave]. *)

From Stdlib Require Import ZArith QArith Reals Lra Lia List String.
From Stdlib Require Import Floats.PrimFloat Floats.FloatOps Floats.SpecFloat.
From stdpp Require Import base list gmap strings pretty.
Import ListNotations.

Open Scope string_scope.
Open Scope Z_scope.

(** ** Exceptions and results *)

(** The exception classes the module raises or catches.  All of them are
    subclasses of [Exception], so [except Exception as e] catches each. *)
Inductive exn : Type :=
| ValueError (msg : string)
| RuntimeError (msg : string)
| OSError (msg : string).

(** [str(e)], as interpolated by the f-strings of the handlers. *)
Definition str (e : exn) : string :=
  match e with
  | ValueError msg | RuntimeError msg | OSError msg => msg
  end.

Inductive result (A : Type) : Type :=
| Ok (a : A)
| Raise (e : exn).
Arguments Ok {A} a.
Arguments Raise {A} e.

#[global] Instance result_ret : MRet result := @Ok.

#[global] Instance result_bind : MBind result := λ A B k r,
  match r with
  | Ok a => k a
  | Raise e => Raise e
  end.

#[global] Instance result_fmap : FMap result := λ A B f r,
  match r with
  | Ok a => Ok (f a)
  | Raise e => Raise e
  end.

(** [try: body except Exception as e: handler e] *)
Definition try_except {A} (body : result A) (handler : exn → result A) : result A :=
  match body with
  | Ok a => Ok a
  | Raise e => handler e
  end.

Fixpoint mapM {A B} (f : A → result B) (l : list A) : result (list B) :=
  match l with
  | [] => Ok []
  | x :: l' => y ← f x; ys ← mapM f l'; Ok (y :: ys)
  end.

(** ** The numeric interface *)

(** What the code asks of float64 values: conversion from Python ints, the
    four operations, [abs], the comparisons [>] and [==], and the C
    conversion to an integer (which discards the fractional part). *)
Class Scalar (F : Type) : Type := {
  of_int : Z → F;
  fadd : F → F → F;
  fsub : F → F → F;
  fmul : F → F → F;
  fdiv : F → F → F;
  fabs : F → F;
  fgt : F → F → bool;
  feq : F → F → bool;
  trunc : F → Z
}.

(** [np.pi], [np.sin] and [np.arcsin]. *)
Class Libm (F : Type) : Type := {
  np_pi : F;
  np_sin : F → F;
  np_arcsin : F → F
}.

(** 16-bit two's complement: the value an int16 holds after a narrowing
    store of the integer [z]. *)
Definition wrap16 (z : Z) : Z := (z + 32768) mod 65536 - 32768.

(** [np.abs] on an int16 element: the result is stored back as int16, so
    the most negative value is its own absolute value. *)
Definition abs16 (z : Z) : Z := wrap16 (Z.abs z).

(** ** Module constants *)

Definition SAMPLING_RATE : Z := 44100.
Definition DURATION_SECONDS : Z := 5.
Definition SOUND_ARRAY_LEN : Z := SAMPLING_RATE * DURATION_SECONDS.
Definition MAX_AMPLITUDE : Z := 2 ^ 13.

(** The [NOTES] dictionary.  Each value is the decimal literal of the
    source; it becomes a float64 through [of_decimal] below. *)
Definition NOTES : gmap string Q := list_to_map [
  ("0", 0%Q); ("e0", 20.60172%Q); ("f0", 21.82676%Q); ("f#0", 23.12465%Q); ("g0", 24.49971%Q);
  ("g#0", 25.95654%Q); ("a0", 27.50000%Q);
  ("a#0", 29.13524%Q); ("b0", 30.86771%Q); ("c0", 32.70320%Q); ("c#0", 34.64783%Q);
  ("d0", 36.70810%Q); ("d#0", 38.89087%Q);
  ("e1", 41.20344%Q); ("f1", 43.65353%Q); ("f#1", 46.24930%Q); ("g1", 48.99943%Q);
  ("g#1", 51.91309%Q); ("a1", 55.00000%Q); ("a#1", 58.27047%Q);
  ("b1", 61.73541%Q); ("c1", 65.40639%Q); ("c#1", 69.29566%Q); ("d1", 73.41619%Q);
  ("d#1", 77.78175%Q);
  ("e2", 82.40689%Q); ("f2", 87.30706%Q); ("f#2", 92.49861%Q); ("g2", 97.99886%Q);
  ("g#2", 103.8262%Q); ("a2", 110.0000%Q); ("a#2", 116.5409%Q);
  ("b2", 123.4708%Q); ("c2", 130.8128%Q); ("c#2", 138.5913%Q); ("d2", 146.8324%Q);
  ("d#2", 155.5635%Q);
  ("e3", 164.8138%Q); ("f3", 174.6141%Q); ("f#3", 184.9972%Q); ("g3", 195.9977%Q);
  ("g#3", 207.6523%Q); ("a3", 220.0000%Q); ("a#3", 233.0819%Q);
  ("b3", 246.9417%Q); ("c3", 261.6256%Q); ("c#3", 277.1826%Q); ("d3", 293.6648%Q);
  ("d#3", 311.1270%Q);
  ("e4", 329.6276%Q); ("f4", 349.2282%Q); ("f#4", 369.9944%Q); ("g4", 391.9954%Q);
  ("g#4", 415.3047%Q); ("a4", 440.0000%Q); ("a#4", 466.1638%Q);
  ("b4", 493.8833%Q); ("c4", 523.2511%Q); ("c#4", 554.3653%Q); ("d4", 587.3295%Q);
  ("d#4", 622.2540%Q);
  ("e5", 659.2551%Q); ("f5", 698.4565%Q); ("f#5", 739.9888%Q); ("g5", 783.9909%Q);
  ("g#5", 830.6094%Q); ("a5", 880.0000%Q); ("a#5", 932.3275%Q);
  ("b5", 987.7666%Q); ("c5", 1046.502%Q); ("c#5", 1108.731%Q); ("d5", 1174.659%Q);
  ("d#5", 1244.508%Q);
  ("e6", 1318.510%Q); ("f6", 1396.913%Q); ("f#6", 1479.978%Q); ("g6", 1567.982%Q);
  ("g#6", 1661.219%Q); ("a6", 1760.000%Q); ("a#6", 1864.655%Q);
  ("b6", 1975.533%Q); ("c6", 2093.005%Q); ("c#6", 2217.461%Q); ("d6", 2349.318%Q);
  ("d#6", 2489.016%Q);
  ("e7", 2637.020%Q); ("f7", 2793.826%Q); ("f#7", 2959.955%Q); ("g7", 3135.963%Q);
  ("g#7", 3322.438%Q); ("a7", 3520.000%Q); ("a#7", 3729.310%Q);
  ("b7", 3951.066%Q); ("c7", 4186.009%Q); ("c#7", 4434.922%Q); ("d7", 4698.636%Q);
  ("d#7", 4978.032%Q)
].

(** ** The disk behind [scipy.io.wavfile] *)

Record wav : Type := { wav_rate : Z; wav_data : list Z }.

Abbreviation disk := (gmap string wav).

(** A computation that may raise and may write files. *)
Definition M (A : Type) : Type := disk → result A * disk.

#[global] Instance M_ret : MRet M := λ A a d, (Ok a, d).

#[global] Instance M_bind : MBind M := λ A B k m d,
  match m d with
  | (Ok a, d') => k a d'
  | (Raise e, d') => (Raise e, d')
  end.

Definition raise {A} (e : exn) : M A := λ d, (Raise e, d).

(** A pure call made from effectful code. *)
Definition lift {A} (r : result A) : M A := λ d, (r, d).

(** [try]/[except] around effectful code: what was written before the
    exception stays written. *)
Definition try_exceptM {A} (body : M A) (handler : exn → M A) : M A :=
  λ d, match body d with
       | (Ok a, d') => (Ok a, d')
       | (Raise e, d') => handler e d'
       end.

(** [wavfile.write(file_name, rate, data)].  The encoder is an external
    collaborator: [write_fault] says for which paths it fails, and with
    which operating-system message; otherwise the file appears on disk. *)
Definition wavfile_write (write_fault : string → option string)
    (file_name : string) (rate : Z) (data : list Z) : M () :=
  λ d, match write_fault file_name with
       | Some msg => (Raise (OSError msg), d)
       | None => (Ok (), <[file_name := {| wav_rate := rate; wav_data := data |}]> d)
       end.

(** ** Values passed to the normalizer *)

(** [normalize_sound_waves] tests [isinstance(wave, np.ndarray)]; the
    arrays the module itself produces are int16 ([create_wave],
    [read_wave_from_txt]) or float64 ([get_normed_wave], the normalizer's
    own output); a plain Python list is the non-array of the tests. *)
Inductive pyobject (F : Type) : Type :=
| int16_array (data : list Z)
| float64_array (data : list F)
| pylist (items : list Z).
Arguments int16_array {F} data.
Arguments float64_array {F} data.
Arguments pylist {F} items.

Definition isinstance_ndarray {F} (o : pyobject F) : bool :=
  match o with
  | int16_array _ | float64_array _ => true
  | pylist _ => false
  end.

(** The builtin [max] over a sequence: keeps the first item and replaces
    it whenever a later item compares greater. *)
Definition py_max {A} (gt : A → A → bool) (l : list A) : result A :=
  match l with
  | [] => Raise (ValueError "max() arg is an empty sequence")
  | x :: l' => Ok (fold_left (λ m item, if gt item m then item else m) l' x)
  end.

Section Factory.
Context {F : Type} `{Scalar F} `{Libm F}.

(** A float literal of the source, written as the decimal it denotes. *)
Definition of_decimal (q : Q) : F :=
  fdiv (of_int (Qnum q)) (of_int (Zpos (Qden q))).

(** [np.arange(0, num)] as float64. *)
Definition arange (num : Z) : list F :=
  map (λ i, of_int (Z.of_nat i)) (seq 0 (Z.to_nat num)).

(** [np.linspace(start, stop, num)] with the default [endpoint=True],
    following NumPy's implementation: the samples are [i * step + start],
    and when there is more than one the last is overwritten by [stop]. *)
Definition linspace (start stop : F) (num : Z) : result (list F) :=
  if num <? 0 then
    Raise (ValueError ("Number of samples, " +:+ pretty num +:+ ", must be non-negative."))
  else
    let div := num - 1 in
    let y := arange num in
    let delta := fsub stop start in
    let y :=
      if 0 <? div then
        let step := fdiv delta (of_int div) in
        if feq step (of_int 0) then map (λ v, fmul (fdiv v (of_int div)) delta) y
        else map (λ v, fmul v step) y
      else map (λ v, fmul v delta) y in
    let y := map (λ v, fadd v start) y in
    Ok (if 1 <? num then <[Z.to_nat (num - 1) := stop]> y else y).

Record SoundWaveFactory : Type := {
  sampling_rate : Z;
  duration_seconds : Z;
  max_amplitude : Z;
  timeline : list F
}.

(** [SoundWaveFactory.__init__] *)
Definition init (sampling_rate duration_seconds max_amplitude : Z)
    : result SoundWaveFactory :=
  timeline ← linspace (of_int 0) (of_int duration_seconds)
                      (sampling_rate * duration_seconds);
  Ok {| sampling_rate := sampling_rate;
        duration_seconds := duration_seconds;
        max_amplitude := max_amplitude;
        timeline := timeline |}.

(** [np.sign]: 1, -1 or 0 by comparison with zero, and the argument
    itself when it compares with nothing (NaN). *)
Definition np_sign (x : F) : F :=
  if fgt x (of_int 0) then of_int 1
  else if fgt (of_int 0) x then of_int (-1)
  else if feq x (of_int 0) then of_int 0
  else x.

Definition wave_types : list string := ["sin"; "square"; "triangle"].

(** [wave_type in ['sin', 'square', 'triangle']] *)
Definition is_wave_type (wave_type : string) : bool :=
  existsb (String.eqb wave_type) wave_types.

(** [np.sin(2 * np.pi * frequency * self.timeline)] *)
Definition carrier (self : SoundWaveFactory) (frequency : F) : list F :=
  map (λ t, np_sin (fmul (fmul (fmul (of_int 2) np_pi) frequency) t)) (timeline self).

(** [SoundWaveFactory.get_normed_wave].  After the membership test the
    last [elif] is the only case left, so it is the final [else]. *)
Definition get_normed_wave (self : SoundWaveFactory) (frequency : F)
    (wave_type : string) : result (list F) :=
  if negb (is_wave_type wave_type) then
    Raise (ValueError "Invalid wave type. Supported types: 'sin', 'square', 'triangle'.")
  else
    try_except
      (if String.eqb wave_type "sin" then
         Ok (map (fmul (of_int (max_amplitude self))) (carrier self frequency))
       else if String.eqb wave_type "square" then
         Ok (map (λ s, fmul (of_int (max_amplitude self)) (np_sign s))
                 (carrier self frequency))
       else
         Ok (map (λ s, fmul (fmul (of_int (max_amplitude self))
                                  (fdiv (of_int 2) np_pi))
                            (np_arcsin s))
                 (carrier self frequency)))
      (λ e, Raise (RuntimeError ("Error generating waveform: " +:+ str e))).

(** [ndarray.astype(np.int16)] on one float64 element: the C conversion
    to an integer followed by the 16-bit store. *)
Definition astype_int16 (x : F) : Z := wrap16 (trunc x).

Definition wave_file_name (note : string) (name : option string) : string :=
  match name with
  | None => note +:+ "_wave.wav"
  | Some name => name +:+ ".wav"
  end.

(** [SoundWaveFactory.create_wave] *)
Definition create_wave (write_fault : string → option string)
    (self : SoundWaveFactory) (note : string) (name : option string)
    (wave_type : string) : M (list Z) :=
  match NOTES !! note with
  | None =>
      raise (ValueError ("Note '" +:+ note +:+ "' is not defined in the NOTES dictionary."))
  | Some frequency =>
      try_exceptM
        (wave ← lift (get_normed_wave self (of_decimal frequency) wave_type);
         let sound_wave := map astype_int16 wave in
         let file_name := wave_file_name note name in
         _ ← wavfile_write write_fault file_name (sampling_rate self) sound_wave;
         mret sound_wave)
        (λ e, raise (RuntimeError
                ("Error creating wave for note '" +:+ note +:+ "': " +:+ str e)))
  end.

(** [wave / max(np.abs(wave)) * self.max_amplitude] for one array.  On an
    int16 array [np.abs] and [max] stay in int16 and the division is
    NumPy's true division, which yields float64.  NumPy would take a list
    of ints as an array of wide integers; [normalize_sound_waves] never
    lets one through. *)
Definition normalize_wave (self : SoundWaveFactory) (wave : pyobject F)
    : result (list F) :=
  match wave with
  | int16_array data =>
      peak ← py_max Z.gtb (map abs16 data);
      Ok (map (λ x, fmul (fdiv (of_int x) (of_int peak)) (of_int (max_amplitude self)))
              data)
  | float64_array data =>
      peak ← py_max fgt (map fabs data);
      Ok (map (λ x, fmul (fdiv x peak) (of_int (max_amplitude self))) data)
  | pylist items =>
      peak ← py_max Z.gtb (map Z.abs items);
      Ok (map (λ x, fmul (fdiv (of_int x) (of_int peak)) (of_int (max_amplitude self)))
              items)
  end.

(** [SoundWaveFactory.normalize_sound_waves] *)
Definition normalize_sound_waves (self : SoundWaveFactory)
    (waves : list (pyobject F)) : result (list (list F)) :=
  if negb (forallb isinstance_ndarray waves) then
    Raise (ValueError "All elements in 'waves' must be numpy ndarray objects.")
  else
    try_except
      (mapM (normalize_wave self) waves)
      (λ e, Raise (RuntimeError ("Error normalizing sound waves: " +:+ str e))).

End Factory.

(** ** The two number systems *)

(** *** Real numbers *)

Definition Rgtb (x y : R) : bool := if Rlt_dec y x then true else false.

Definition Reqb (x y : R) : bool := if Req_dec_T x y then true else false.

(** Conversion to an integer that discards the fractional part: the floor
    of a non-negative number, the ceiling of a negative one. *)
Definition Rtrunc (x : R) : Z :=
  if Rle_dec 0 x then Int_part x else - Int_part (- x).

#[global] Instance real_scalar : Scalar R := {|
  of_int := IZR;
  fadd := Rplus;
  fsub := Rminus;
  fmul := Rmult;
  fdiv := Rdiv;
  fabs := Rabs;
  fgt := Rgtb;
  feq := Reqb;
  trunc := Rtrunc
|}.

#[global] Instance real_libm : Libm R := {|
  np_pi := PI;
  np_sin := sin;
  np_arcsin := asin
|}.

(** *** IEEE binary64 *)

(** A Python int as the nearest float64. *)
Definition float_of_int (z : Z) : float :=
  SF2Prim (binary_normalize prec emax z 0 false).

(** The integer part of a finite float [(-1)^s * m * 2^e].  C leaves the
    conversion of NaN and of the infinities undefined; they are given 0. *)
Definition float_trunc (x : float) : Z :=
  match Prim2SF x with
  | S754_finite s m e =>
      let magnitude := if 0 <=? e then Zpos m * 2 ^ e else Zpos m / 2 ^ (- e) in
      if s then - magnitude else magnitude
  | _ => 0
  end.

#[global] Instance binary64_scalar : Scalar float := {|
  of_int := float_of_int;
  fadd := PrimFloat.add;
  fsub := PrimFloat.sub;
  fmul := PrimFloat.mul;
  fdiv := PrimFloat.div;
  fabs := PrimFloat.abs;
  fgt := λ x y, PrimFloat.ltb y x;
  feq := PrimFloat.eqb;
  trunc := float_trunc
|}.

(** ** The specification's vocabulary *)

(** The error taxonomy of the specification, as the code realises it:
    validation errors are [ValueError]s, wrapped failures are
    [RuntimeError]s whose message embeds [str] of the cause. *)
Definition InvalidWaveTypeError : exn :=
  ValueError "Invalid wave type. Supported types: 'sin', 'square', 'triangle'.".

Definition UnknownNoteError (note : string) : exn :=
  ValueError ("Note '" +:+ note +:+ "' is not defined in the NOTES dictionary.").

Definition SynthesisError (cause : exn) : exn :=
  RuntimeError ("Error generating waveform: " +:+ str cause).

Definition CreationError (note : string) (cause : exn) : exn :=
  RuntimeError ("Error creating wave for note '" +:+ note +:+ "': " +:+ str cause).

Definition NormalizationError (cause : exn) : exn :=
  RuntimeError ("Error normalizing sound waves: " +:+ str cause).

(** The sign function of the specification, with [sgn 0 = 0]. *)
Definition sgn (x : R) : R :=
  if Rlt_dec 0 x then 1%R else if Rlt_dec x 0 then (-1)%R else 0%R.

(** [n] is [x] with its fractional part dropped: no larger in magnitude
    than [x] and less than one away from it. *)
Definition truncation (x : R) (n : Z) : Prop :=
  (Rabs (IZR n) <= Rabs x ∧ Rabs (x - IZR n) < 1)%R.

(** A buffer the module can normalize: an array with at least one sample. *)
Definition nonempty_ndarray {F} (o : pyobject F) : Prop :=
  match o with
  | int16_array data => data ≠ []
  | float64_array data => data ≠ []
  | pylist _ => False
  end.

(** A small configuration over the reals: two samples per second for one
    second. *)
Definition demo_factory : SoundWaveFactory (F := R) := {|
  sampling_rate := 2;
  duration_seconds := 1;
  max_amplitude := MAX_AMPLITUDE;
  timeline := [0%R; 1%R]
|}.

(** The default amplitude on binary64; the normalizer reads nothing else
    of the configuration. *)
Definition demo_factory64 : SoundWaveFactory (F := float) := {|
  sampling_rate := 2;
  duration_seconds := 1;
  max_amplitude := MAX_AMPLITUDE;
  timeline := [0%float; 1%float]
|}.

(** A disk on which nothing can be written. *)
Definition read_only : string → option string := λ _, Some "Permission denied".

(** A disk on which every write succeeds. *)
Definition writable : string → option string := λ _, None.

(** ** The inspector *)

Definition newline : string := String (Ascii.ascii_of_N 10) "".

(** [len(wave)] *)
Definition len {F} (wave : pyobject F) : nat :=
  match wave with
  | int16_array data => length data
  | float64_array data => length data
  | pylist items => length items
  end.

(** [np.max] and [np.min] of an int16 array; an empty array has neither. *)
Definition np_max_int16 (data : list Z) : result Z :=
  match data with
  | [] => Raise (ValueError
            "zero-size array to reduction operation maximum which has no identity")
  | x :: data' => Ok (fold_left Z.max data' x)
  end.

Definition np_min_int16 (data : list Z) : result Z :=
  match data with
  | [] => Raise (ValueError
            "zero-size array to reduction operation minimum which has no identity")
  | x :: data' => Ok (fold_left Z.min data' x)
  end.

Section Inspector.
Context {F : Type} `{Scalar F}.

(** [np.maximum] and [np.minimum] on two float64 values: the first when
    it compares at least (at most) the second or is NaN, else the second. *)
Definition np_maximum (a b : F) : F :=
  if fgt a b || feq a b || negb (feq a a) then a else b.

Definition np_minimum (a b : F) : F :=
  if fgt b a || feq a b || negb (feq a a) then a else b.

Definition np_max_float64 (data : list F) : result F :=
  match data with
  | [] => Raise (ValueError
            "zero-size array to reduction operation maximum which has no identity")
  | x :: data' => Ok (fold_left np_maximum data' x)
  end.

Definition np_min_float64 (data : list F) : result F :=
  match data with
  | [] => Raise (ValueError
            "zero-size array to reduction operation minimum which has no identity")
  | x :: data' => Ok (fold_left np_minimum data' x)
  end.

(** The text of the report, once its three numbers are formatted. *)
Definition wave_details (count highest lowest : string) : string :=
  "Wave Details:" +:+ newline +:+ "- Length: " +:+ count +:+ newline
  +:+ "- Max Amplitude: " +:+ highest +:+ newline
  +:+ "- Min Amplitude: " +:+ lowest.

(** [SoundWaveFactory.print_wave_details].  [stdout] is the list of the
    texts printed so far; [format_float] is [str] on a float64 scalar.
    The three fields of the f-string are evaluated before anything is
    printed. *)
Definition print_wave_details (format_float : F → string) (wave : pyobject F)
    (stdout : list string) : result () * list string :=
  match wave with
  | pylist _ => (Raise (ValueError "The wave must be a numpy ndarray."), stdout)
  | int16_array data =>
      match np_max_int16 data, np_min_int16 data with
      | Ok highest, Ok lowest =>
          (Ok (), (stdout ++ [wave_details (pretty (length data))
                                           (pretty highest) (pretty lowest)])%list)
      | Raise e, _ | _, Raise e => (Raise e, stdout)
      end
  | float64_array data =>
      match np_max_float64 data, np_min_float64 data with
      | Ok highest, Ok lowest =>
          (Ok (), (stdout ++ [wave_details (pretty (length data))
                                           (format_float highest)
                                           (format_float lowest)])%list)
      | Raise e, _ | _, Raise e => (Raise e, stdout)
      end
  end.

End Inspector.

(** A configuration over the reals whose second sample falls on the
    quarter period of the note "a0" (27.5 Hz). *)
Definition quarter_factory : SoundWaveFactory (F := R) := {|
  sampling_rate := 2;
  duration_seconds := 1;
  max_amplitude := MAX_AMPLITUDE;
  timeline := [0%R; (1 / 110)%R]
|}.

(** * Properties *)

(** ** Control flow, for every number system *)

Section FactoryFacts.
Context {F : Type} `{Scalar F} `{Libm F}.
Implicit Types (self : SoundWaveFactory (F := F)) (d : disk).

Lemma is_wave_type_In wave_type :
  is_wave_type wave_type = true ↔ wave_type ∈ wave_types.
Proof.
  unfold is_wave_type. rewrite existsb_exists. split.
  - intros (w & Hw & Heq). apply String.eqb_eq in Heq. subst.
    by apply list_elem_of_In.
  - intros Hin. exists wave_type. split; [by apply list_elem_of_In|].
    apply String.eqb_refl.
Qed.

Lemma is_wave_type_not_In wave_type :
  wave_type ∉ wave_types → is_wave_type wave_type = false.
Proof.
  intros Hnot. destruct (is_wave_type wave_type) eqn:E; [|done].
  by apply is_wave_type_In in E.
Qed.

Lemma get_normed_wave_raises self frequency wave_type :
  wave_type ∉ wave_types →
  get_normed_wave self frequency wave_type = Raise InvalidWaveTypeError.
Proof.
  intros Hnot. unfold get_normed_wave.
  by rewrite (is_wave_type_not_In _ Hnot).
Qed.

Lemma get_normed_wave_returns self frequency wave_type :
  wave_type ∈ wave_types →
  ∃ wave, get_normed_wave self frequency wave_type = Ok wave
          ∧ length wave = length (timeline self).
Proof.
  intros Hin. unfold get_normed_wave.
  rewrite (proj2 (is_wave_type_In _) Hin). cbn [negb].
  destruct (String.eqb wave_type "sin"); [|destruct (String.eqb wave_type "square")];
    cbn [try_except]; eexists; (split; [reflexivity|]);
    unfold carrier; by rewrite !length_map.
Qed.

Lemma create_wave_unknown write_fault self note name wave_type d :
  NOTES !! note = None →
  create_wave write_fault self note name wave_type d
  = (Raise (UnknownNoteError note), d).
Proof. intros Hnone. unfold create_wave. by rewrite Hnone. Qed.

Lemma create_wave_known write_fault self note name wave_type d frequency wave :
  NOTES !! note = Some frequency →
  get_normed_wave self (of_decimal frequency) wave_type = Ok wave →
  create_wave write_fault self note name wave_type d
  = match write_fault (wave_file_name note name) with
    | None =>
        (Ok (map astype_int16 wave),
         <[wave_file_name note name :=
             {| wav_rate := sampling_rate self;
                wav_data := map astype_int16 wave |}]> d)
    | Some msg => (Raise (CreationError note (OSError msg)), d)
    end.
Proof.
  intros Hnote Hwave. unfold create_wave. rewrite Hnote.
  unfold try_exceptM, mbind, M_bind, lift, wavfile_write. rewrite Hwave.
  by destruct (write_fault _).
Qed.

Lemma create_wave_wraps write_fault self note name wave_type d frequency e :
  NOTES !! note = Some frequency →
  get_normed_wave self (of_decimal frequency) wave_type = Raise e →
  create_wave write_fault self note name wave_type d
  = (Raise (CreationError note e), d).
Proof.
  intros Hnote Hwave. unfold create_wave. rewrite Hnote.
  unfold try_exceptM, mbind, M_bind, lift. by rewrite Hwave.
Qed.

Lemma create_wave_failure_wrapped write_fault self note name wave_type d frequency e :
  NOTES !! note = Some frequency →
  (create_wave write_fault self note name wave_type d).1 = Raise e →
  ∃ cause, e = CreationError note cause.
Proof.
  intros Hnote Hrun.
  destruct (get_normed_wave self (of_decimal frequency) wave_type) as [wave|cause]
    eqn:Hwave.
  - rewrite (create_wave_known _ _ _ _ _ _ _ _ Hnote Hwave) in Hrun.
    destruct (write_fault _) as [msg|]; [|done].
    exists (OSError msg). by injection Hrun as <-.
  - rewrite (create_wave_wraps _ _ _ _ _ _ _ _ Hnote Hwave) in Hrun.
    exists cause. by injection Hrun as <-.
Qed.

(** C8: a wave type outside ['sin', 'square', 'triangle'] makes
    [get_normed_wave] raise the validation error, whatever the frequency,
    the configuration and the arithmetic (nothing is computed before the
    test), and that error is not the wrapped error of the computation. *)
Theorem invalid_wave_type_rejected self frequency wave_type :
  wave_type ∉ wave_types →
  get_normed_wave self frequency wave_type = Raise InvalidWaveTypeError
  ∧ ∀ cause, InvalidWaveTypeError ≠ SynthesisError cause.
Proof.
  intros Hnot. split; [by apply get_normed_wave_raises | done].
Qed.

(** C9: a note that is not a key of [NOTES] makes [create_wave] raise the
    unknown-note error and leave the disk as it was, whatever the encoder
    would have done; the entry of "a4" is 440. *)
Theorem unknown_note_rejected write_fault self note name wave_type d :
  NOTES !! note = None →
  create_wave write_fault self note name wave_type d
  = (Raise (UnknownNoteError note), d)
  ∧ ∃ q, NOTES !! "a4" = Some q ∧ (q == 440)%Q
         ∧ of_decimal (F := float) q = 440%float.
Proof.
  intros Hnone. split; [by apply create_wave_unknown|].
  exists 440.0000%Q. split; [by vm_compute|]. split; [done | by vm_compute].
Qed.

(** C10: for a known note and a wave type outside the valid ones,
    [create_wave] does not let the validation error through: it raises the
    creation error, whose message names the note and ends with the
    validation message; nothing is written. *)
Theorem invalid_wave_type_wrapped write_fault self note name wave_type d frequency :
  NOTES !! note = Some frequency →
  wave_type ∉ wave_types →
  create_wave write_fault self note name wave_type d
  = (Raise (CreationError note InvalidWaveTypeError), d)
  ∧ CreationError note InvalidWaveTypeError
    = RuntimeError ("Error creating wave for note '" +:+ note +:+
        "': Invalid wave type. Supported types: 'sin', 'square', 'triangle'.")
  ∧ CreationError note InvalidWaveTypeError ≠ InvalidWaveTypeError.
Proof.
  intros Hnote Hnot. split; [|done].
  eapply create_wave_wraps; [done|]. by apply get_normed_wave_raises.
Qed.

(** C1, as the code has it: for a known note and a valid wave type the
    synthesis succeeds; when the encoder succeeds [create_wave] returns the
    quantized buffer and the file is on disk, and when the encoder fails it
    raises the creation error that names the note and returns no buffer.
    For a known note every exception that leaves [create_wave], whatever
    the wave type, is such a creation error. *)
Theorem create_wave_known_note write_fault self note name wave_type d frequency :
  NOTES !! note = Some frequency →
  wave_type ∈ wave_types →
  (∃ wave,
     get_normed_wave self (of_decimal frequency) wave_type = Ok wave
     ∧ create_wave write_fault self note name wave_type d
       = match write_fault (wave_file_name note name) with
         | None =>
             (Ok (map astype_int16 wave),
              <[wave_file_name note name :=
                  {| wav_rate := sampling_rate self;
                     wav_data := map astype_int16 wave |}]> d)
         | Some msg => (Raise (CreationError note (OSError msg)), d)
         end)
  ∧ ∀ any_type e,
      (create_wave write_fault self note name any_type d).1 = Raise e →
      ∃ cause,
        e = RuntimeError ("Error creating wave for note '" +:+ note +:+ "': "
                          +:+ str cause).
Proof.
  intros Hnote Hin. split.
  - destruct (get_normed_wave_returns self (of_decimal frequency) _ Hin)
      as (wave & Hwave & _).
    exists wave. split; [done|]. by eapply create_wave_known.
  - intros any_type e Hrun. by eapply create_wave_failure_wrapped.
Qed.

End FactoryFacts.

Lemma invalid_wave_type_rejected_witness :
  ("sawtooth" ∉ wave_types)
  ∧ get_normed_wave demo_factory 440%R "sawtooth" = Raise InvalidWaveTypeError.
Proof.
  assert (Hnot : "sawtooth" ∉ wave_types) by (by apply (bool_decide_unpack _)).
  split; [exact Hnot|].
  exact (proj1 (invalid_wave_type_rejected demo_factory 440%R "sawtooth" Hnot)).
Defined.

Lemma unknown_note_rejected_witness :
  NOTES !! "z9" = None
  ∧ create_wave writable demo_factory "z9" None "sin" ∅
    = (Raise (UnknownNoteError "z9"), ∅).
Proof.
  assert (Hnone : NOTES !! "z9" = None) by (vm_compute; reflexivity).
  split; [exact Hnone|].
  exact (proj1 (unknown_note_rejected writable demo_factory "z9" None "sin" ∅ Hnone)).
Defined.

Lemma invalid_wave_type_wrapped_witness :
  NOTES !! "a4" = Some 440.0000%Q
  ∧ ("sawtooth" ∉ wave_types)
  ∧ create_wave writable demo_factory "a4" None "sawtooth" ∅
    = (Raise (CreationError "a4" InvalidWaveTypeError), ∅).
Proof.
  assert (Hnote : NOTES !! "a4" = Some 440.0000%Q) by (vm_compute; reflexivity).
  assert (Hnot : "sawtooth" ∉ wave_types) by (by apply (bool_decide_unpack _)).
  split; [exact Hnote|]. split; [exact Hnot|].
  exact (proj1 (invalid_wave_type_wrapped writable demo_factory "a4" None "sawtooth"
                  ∅ _ Hnote Hnot)).
Defined.

Lemma create_wave_known_note_witness :
  NOTES !! "a4" = Some 440.0000%Q
  ∧ "sin" ∈ wave_types
  ∧ ∃ wave,
      get_normed_wave demo_factory (of_decimal 440.0000%Q) "sin" = Ok wave
      ∧ create_wave writable demo_factory "a4" None "sin" ∅
        = (Ok (map astype_int16 wave),
           {["a4_wave.wav" := {| wav_rate := 2; wav_data := map astype_int16 wave |}]}).
Proof.
  assert (Hnote : NOTES !! "a4" = Some 440.0000%Q) by (vm_compute; reflexivity).
  assert (Hin : "sin" ∈ wave_types) by (by apply (bool_decide_unpack _)).
  split; [exact Hnote|]. split; [exact Hin|].
  exact (proj1 (create_wave_known_note writable demo_factory "a4" None "sin" ∅ _
                  Hnote Hin)).
Defined.

(** C1, as stated, fails: on a disk that refuses the write, the known
    note "a4" with the valid type 'sin' yields no buffer but the creation
    error. *)
Lemma create_wave_write_failure_raises :
  NOTES !! "a4" = Some 440.0000%Q
  ∧ "sin" ∈ wave_types
  ∧ create_wave read_only demo_factory "a4" None "sin" ∅
    = (Raise (RuntimeError "Error creating wave for note 'a4': Permission denied"), ∅)
  ∧ ∀ buffer, (create_wave read_only demo_factory "a4" None "sin" ∅).1 ≠ Ok buffer.
Proof.
  assert (Hnote : NOTES !! "a4" = Some 440.0000%Q) by (vm_compute; reflexivity).
  assert (Hin : "sin" ∈ wave_types) by (by apply (bool_decide_unpack _)).
  destruct (get_normed_wave_returns demo_factory (of_decimal 440.0000%Q) "sin" Hin)
    as (wave & Hwave & _).
  pose proof (create_wave_known read_only demo_factory "a4" None "sin" ∅ _ _
                Hnote Hwave) as Hrun.
  cbn [read_only] in Hrun.
  split; [exact Hnote|]. split; [exact Hin|]. split; [exact Hrun|].
  intros buffer. by rewrite Hrun.
Qed.

(** ** Synthesis over the real numbers *)

Section RealFacts.
Implicit Types (self : SoundWaveFactory (F := R)) (x t frequency : R).
Open Scope R_scope.

Lemma np_sign_sgn x : np_sign x = sgn x.
Proof.
  unfold np_sign, sgn; cbn [fgt feq of_int real_scalar]; unfold Rgtb, Reqb.
  destruct (Rlt_dec 0 x); [done|].
  destruct (Rlt_dec x 0); [done|].
  destruct (Req_dec_T x 0); [done | lra].
Qed.

Lemma sgn_bound x : Rabs (sgn x) <= 1.
Proof.
  unfold sgn. destruct (Rlt_dec 0 x); [|destruct (Rlt_dec x 0)];
    unfold Rabs; destruct (Rcase_abs _); lra.
Qed.

Lemma sin_abs_bound x : Rabs (sin x) <= 1.
Proof. apply Rabs_le. apply SIN_bound. Qed.

Lemma asin_abs_bound x : Rabs (asin x) <= PI / 2.
Proof. apply Rabs_le. apply asin_bound. Qed.

Lemma wave_type_cases (wave_type : string) :
  wave_type ∈ wave_types →
  wave_type = "sin" ∨ wave_type = "square" ∨ wave_type = "triangle".
Proof.
  unfold wave_types. rewrite !elem_of_cons, elem_of_nil. tauto.
Qed.

Lemma get_normed_wave_sin self frequency :
  get_normed_wave self frequency "sin"
  = Ok (map (λ t, IZR (max_amplitude self) * sin (2 * PI * frequency * t))
            (timeline self)).
Proof.
  unfold get_normed_wave, carrier. cbn. by rewrite map_map.
Qed.

Lemma get_normed_wave_square self frequency :
  get_normed_wave self frequency "square"
  = Ok (map (λ t, IZR (max_amplitude self) * sgn (sin (2 * PI * frequency * t)))
            (timeline self)).
Proof.
  unfold get_normed_wave, carrier. cbn. rewrite map_map. f_equal.
  apply map_ext. intros t. by rewrite np_sign_sgn.
Qed.

Lemma get_normed_wave_triangle self frequency :
  get_normed_wave self frequency "triangle"
  = Ok (map (λ t, IZR (max_amplitude self) * (2 / PI)
                  * asin (sin (2 * PI * frequency * t)))
            (timeline self)).
Proof.
  unfold get_normed_wave, carrier. cbn. by rewrite map_map.
Qed.


(** C4: for a non-negative amplitude, each of the three wave types yields
    a buffer all of whose samples lie within the amplitude. *)
Theorem get_normed_wave_bounded self frequency wave_type :
  (0 <= max_amplitude self)%Z →
  wave_type ∈ wave_types →
  ∃ wave,
    get_normed_wave self frequency wave_type = Ok wave
    ∧ Forall (λ x, Rabs x <= IZR (max_amplitude self)) wave.
Proof.
  intros Hamp Hin. apply IZR_le in Hamp.
  destruct (wave_type_cases _ Hin) as [-> | [-> | ->]]; eexists.
  - split; [apply get_normed_wave_sin|].
    apply Forall_map, Forall_forall. intros t _.
    rewrite Rabs_mult, (Rabs_pos_eq _ Hamp).
    pose proof (sin_abs_bound (2 * PI * frequency * t)). nra.
  - split; [apply get_normed_wave_square|].
    apply Forall_map, Forall_forall. intros t _.
    rewrite Rabs_mult, (Rabs_pos_eq _ Hamp).
    pose proof (sgn_bound (sin (2 * PI * frequency * t))). nra.
  - split; [apply get_normed_wave_triangle|].
    apply Forall_map, Forall_forall. intros t _.
    pose proof PI_RGT_0 as Hpi.
    assert (Hc : 0 <= 2 / PI) by (apply Rlt_le, Rdiv_lt_0_compat; lra).
    rewrite !Rabs_mult, (Rabs_pos_eq _ Hamp), (Rabs_pos_eq _ Hc).
    pose proof (asin_abs_bound (sin (2 * PI * frequency * t))) as Hb.
    replace (IZR (max_amplitude self))
      with (IZR (max_amplitude self) * (2 / PI) * (PI / 2)) at 2 by (field; lra).
    apply Rmult_le_compat_l; [nra | done].
Qed.

End RealFacts.

Lemma get_normed_wave_bounded_witness :
  0 <= max_amplitude demo_factory
  ∧ "triangle" ∈ wave_types
  ∧ ∃ wave,
      get_normed_wave demo_factory 440%R "triangle" = Ok wave
      ∧ Forall (λ x, (Rabs x <= IZR (max_amplitude demo_factory))%R) wave.
Proof.
  assert (Hamp : 0 <= max_amplitude demo_factory) by (vm_compute; discriminate).
  assert (Hin : "triangle" ∈ wave_types) by (by apply (bool_decide_unpack _)).
  split; [exact Hamp|]. split; [exact Hin|].
  exact (get_normed_wave_bounded demo_factory 440%R "triangle" Hamp Hin).
Defined.

(** ** The timeline *)

Section TimelineFacts.
Implicit Types (start stop : R) (num : Z).
Open Scope R_scope.

Lemma arange_lookup num (i : nat) :
  (i < Z.to_nat num)%nat →
  arange (F := R) num !! i = Some (INR i).
Proof.
  intros Hi. unfold arange. change map with (@fmap list _) at 1.
  rewrite list_lookup_fmap, lookup_seq_lt by done. cbn.
  by rewrite <- INR_IZR_INZ.
Qed.

Lemma linspace_single start stop : linspace start stop 1 = Ok [start].
Proof.
  unfold linspace, arange.
  change (1 <? 0)%Z with false. change (0 <? 1 - 1)%Z with false.
  change (1 <? 1)%Z with false. change (Z.to_nat 1) with 1%nat.
  cbn. do 2 f_equal. ring.
Qed.

Lemma linspace_many start stop num :
  (2 <= num)%Z →
  stop ≠ start →
  linspace start stop num
  = Ok (<[Z.to_nat (num - 1) := stop]>
          (map (λ i : nat, INR i * ((stop - start) / IZR (num - 1)) + start)
               (seq 0 (Z.to_nat num)))).
Proof.
  intros Hnum Hne. unfold linspace.
  destruct (Z.ltb_spec num 0); [lia|].
  destruct (Z.ltb_spec 0 (num - 1)); [|lia].
  destruct (Z.ltb_spec 1 num); [|lia].
  cbn [feq fsub fdiv fmul fadd of_int real_scalar]. unfold Reqb.
  assert (Hdiv : IZR (num - 1) ≠ 0) by (apply not_0_IZR; lia).
  destruct (Req_dec_T _ _) as [Hzero|_].
  { exfalso. apply Hne.
    apply (f_equal (λ s, s * IZR (num - 1))) in Hzero.
    unfold Rdiv in Hzero. rewrite Rmult_assoc, Rinv_l in Hzero by done. lra. }
  do 2 f_equal. unfold arange. rewrite !map_map. apply map_ext.
  intros i. by rewrite <- INR_IZR_INZ.
Qed.

Lemma linspace_many_lookup start stop num (i : nat) :
  (2 <= num)%Z →
  stop ≠ start →
  (i < Z.to_nat num)%nat →
  ∃ samples,
    linspace start stop num = Ok samples
    ∧ length samples = Z.to_nat num
    ∧ samples !! i = Some (INR i * ((stop - start) / IZR (num - 1)) + start).
Proof.
  intros Hnum Hne Hi. eexists. split; [by apply linspace_many|].
  split; [by rewrite length_insert, length_map, length_seq|].
  assert (Hdiv : IZR (num - 1) ≠ 0) by (apply not_0_IZR; lia).
  destruct (decide (i = Z.to_nat (num - 1))) as [->|Hother].
  - rewrite list_lookup_insert_eq
      by (rewrite length_map, length_seq; lia).
    f_equal. rewrite INR_IZR_INZ, Z2Nat.id by lia. by field.
  - rewrite list_lookup_insert_ne by done.
    change map with (@fmap list _) at 1.
    by rewrite list_lookup_fmap, lookup_seq_lt.
Qed.

(** C5, as the code has it: for positive rate and duration the timeline
    has [N = rate * duration] samples and starts at 0; with at least two
    samples the i-th one is [i * duration / (N - 1)], so the spacing is
    even and the last sample is the duration itself; with a single sample
    the timeline is [0] alone and does not reach the duration. *)
Theorem timeline_linspace (rate duration amplitude : Z) :
  (0 < rate)%Z →
  (0 < duration)%Z →
  ∃ self,
    init rate duration amplitude = Ok self
    ∧ length (timeline self) = Z.to_nat (rate * duration)
    ∧ head (timeline self) = Some 0
    ∧ ((2 <= rate * duration)%Z →
       (∀ i : nat, (i < Z.to_nat (rate * duration))%nat →
          timeline self !! i
          = Some (INR i * (IZR duration / IZR (rate * duration - 1))))
       ∧ last (timeline self) = Some (IZR duration))
    ∧ ((rate * duration = 1)%Z → timeline self = [0]).
Proof.
  intros Hrate Hduration. unfold init.
  assert (Hnum : (1 <= rate * duration)%Z) by nia.
  assert (Hstop : IZR duration ≠ 0) by (apply not_0_IZR; lia).
  cbn [of_int real_scalar].
  destruct (decide (rate * duration = 1)%Z) as [Hone|Hmany].
  - rewrite Hone, linspace_single. cbn. eexists. split; [done|].
    cbn. repeat split; [lia | done].
  - assert (Htwo : (2 <= rate * duration)%Z) by lia.
    rewrite (linspace_many _ _ _ Htwo Hstop). cbn. eexists. split; [done|].
    cbn [timeline].
    assert (Hat : ∀ i : nat, (i < Z.to_nat (rate * duration))%nat →
              <[Z.to_nat (rate * duration - 1) := IZR duration]>
                (map (λ i : nat,
                        INR i * ((IZR duration - 0) / IZR (rate * duration - 1)) + 0)
                     (seq 0 (Z.to_nat (rate * duration)))) !! i
              = Some (INR i * (IZR duration / IZR (rate * duration - 1)))).
    { intros i Hi.
      destruct (linspace_many_lookup 0 (IZR duration) _ i Htwo Hstop Hi)
        as (samples & Hrun & _ & Hlookup).
      rewrite (linspace_many _ _ _ Htwo Hstop) in Hrun.
      injection Hrun as <-. rewrite Hlookup. f_equal.
      unfold Rdiv. ring. }
    assert (Hlen : length
              (<[Z.to_nat (rate * duration - 1) := IZR duration]>
                (map (λ i : nat,
                        INR i * ((IZR duration - 0) / IZR (rate * duration - 1)) + 0)
                     (seq 0 (Z.to_nat (rate * duration)))))
              = Z.to_nat (rate * duration))
      by (by rewrite length_insert, length_map, length_seq).
    split; [done|]. split.
    + rewrite head_lookup, Hat by lia. f_equal. cbn. lra.
    + split; [|done]. intros _. split; [done|].
      rewrite last_lookup, Hlen, Hat by lia. f_equal.
      assert (Hdiv : IZR (rate * duration - 1) ≠ 0) by (apply not_0_IZR; lia).
      replace (INR (Init.Nat.pred (Z.to_nat (rate * duration))))
        with (IZR (rate * duration - 1)).
      * by field.
      * rewrite INR_IZR_INZ. f_equal. lia.
Qed.

End TimelineFacts.

Lemma timeline_linspace_witness :
  0 < 2 ∧ 0 < 1
  ∧ ∃ self,
      init (F := R) 2 1 MAX_AMPLITUDE = Ok self
      ∧ length (timeline self) = Z.to_nat (2 * 1)
      ∧ head (timeline self) = Some 0%R
      ∧ (2 <= 2 * 1 →
         (∀ i : nat, (i < Z.to_nat (2 * 1))%nat →
            timeline self !! i = Some (INR i * (IZR 1 / IZR (2 * 1 - 1)))%R)
         ∧ last (timeline self) = Some (IZR 1))
      ∧ (2 * 1 = 1 → timeline self = [0%R]).
Proof.
  assert (Hrate : 0 < 2) by reflexivity.
  assert (Hduration : 0 < 1) by reflexivity.
  split; [exact Hrate|]. split; [exact Hduration|].
  exact (timeline_linspace 2 1 MAX_AMPLITUDE Hrate Hduration).
Defined.

(** C5, as stated, fails: one sample per second for one second is a
    positive configuration whose timeline is the single value 0, so its
    last value is not the duration 1. *)
Lemma timeline_single_sample_misses_end :
  0 < 1 ∧ 0 < 1
  ∧ ∃ self,
      init (F := R) 1 1 MAX_AMPLITUDE = Ok self
      ∧ timeline self = [0%R]
      ∧ last (timeline self) ≠ Some (IZR 1).
Proof.
  split; [reflexivity|]. split; [reflexivity|].
  unfold init. change (1 * 1) with 1. rewrite linspace_single.
  eexists. split; [reflexivity|]. split; [reflexivity|].
  cbn. intros [= Heq]. lra.
Qed.

(** ** Quantization *)

Lemma wrap16_range z : -32768 <= wrap16 z <= 32767.
Proof. unfold wrap16. pose proof (Z.mod_pos_bound (z + 32768) 65536). lia. Qed.


Lemma wrap16_in_range z : -32768 <= z <= 32767 → wrap16 z = z.
Proof. intros Hz. unfold wrap16. rewrite Z.mod_small; lia. Qed.

Lemma Int_part_nonneg (x : R) : (0 <= x)%R → 0 <= Int_part x.
Proof.
  intros Hx. destruct (base_Int_part x) as [_ Hgt].
  assert (Hlt : (IZR (-1) < IZR (Int_part x))%R) by lra.
  apply lt_IZR in Hlt. lia.
Qed.

Lemma Rtrunc_truncation (x : R) : truncation x (Rtrunc x).
Proof.
  unfold truncation, Rtrunc. destruct (Rle_dec 0 x) as [Hpos|Hneg].
  - destruct (base_Int_part x) as [Hle Hgt].
    pose proof (IZR_le _ _ (Int_part_nonneg x Hpos)) as Hn.
    rewrite (Rabs_pos_eq (IZR _)), (Rabs_pos_eq x) by done.
    split; [done|]. rewrite Rabs_pos_eq; lra.
  - assert (Hx : (0 <= - x)%R) by lra.
    destruct (base_Int_part (- x)) as [Hle Hgt].
    pose proof (IZR_le _ _ (Int_part_nonneg _ Hx)) as Hn.
    rewrite opp_IZR, Rabs_Ropp, (Rabs_pos_eq (IZR _)) by done.
    rewrite (Rabs_left x) by lra. split; [done|].
    rewrite Rabs_left1; lra.
Qed.

Lemma truncation_unique (x : R) (n m : Z) :
  truncation x n → truncation x m → n = m.
Proof.
  unfold truncation. intros [Hn1 Hn2] [Hm1 Hm2].
  assert (Hlt : (IZR (n - m) < IZR 1)%R ∧ (IZR (m - n) < IZR 1)%R).
  { rewrite !minus_IZR. revert Hn1 Hn2 Hm1 Hm2. unfold Rabs.
    repeat destruct (Rcase_abs _); lra. }
  destruct Hlt as [H1 H2]. apply lt_IZR in H1, H2. lia.
Qed.




(** The same conversion on binary64: 1.75 and -1.75 lose their fraction
    towards zero, and 40000 and 32768 wrap around. *)
Example astype_int16_binary64 :
  map (astype_int16 (F := float)) [1.75%float; (-1.75)%float; 40000%float; 32768%float]
  = [1; -1; -25536; -32768].
Proof. by vm_compute. Qed.

(** ** Normalization *)

Section NormalizeFacts.
Context {F : Type} `{Scalar F}.
Implicit Types (self : SoundWaveFactory (F := F)) (wave : pyobject F).

Lemma py_max_nonempty {A} (gt : A → A → bool) (l : list A) :
  l ≠ [] → ∃ peak, py_max gt l = Ok peak.
Proof. destruct l; [done|]. intros _. by eexists. Qed.

Lemma normalize_wave_returns self wave :
  nonempty_ndarray wave → ∃ out, normalize_wave self wave = Ok out.
Proof.
  destruct wave as [data|data|items]; cbn; [| |done]; intros Hdata.
  - destruct (py_max_nonempty Z.gtb (map abs16 data)) as [peak ->];
      [by destruct data|]. by eexists.
  - destruct (py_max_nonempty fgt (map fabs data)) as [peak ->];
      [by destruct data|]. by eexists.
Qed.




End NormalizeFacts.






(** C7 at the failing input: in the int16 buffer [-32768, 1] the absolute
    value of -32768 wraps to -32768, so the peak found is 1 and the buffer
    is scaled by 8192 as it stands: its largest magnitude is 268435456, not
    the amplitude 8192. *)
Theorem normalize_int16_minimum_escapes :
  map abs16 [-32768; 1] = [-32768; 1]
  ∧ py_max Z.gtb (map abs16 [-32768; 1]) = Ok 1
  ∧ max_amplitude demo_factory64 = 8192
  ∧ normalize_sound_waves demo_factory64 [int16_array [-32768; 1]]
    = Ok [[(-268435456)%float; 8192%float]].
Proof. repeat split; by vm_compute. Qed.

(** ** Where peak normalization does hold *)

Section PeakFacts.
Implicit Types (self : SoundWaveFactory (F := R)).
Open Scope R_scope.

Lemma fold_max_real (l : list R) (x : R) :
  let peak := fold_left (λ m item, if Rgtb item m then item else m) l x in
  x <= peak ∧ Forall (λ y, y <= peak) l ∧ (peak = x ∨ peak ∈ l).
Proof.
  revert x. induction l as [|y l IH]; intros x; cbn.
  - split; [lra|]. split; [constructor | by left].
  - destruct (Rgtb y x) eqn:Hgt; unfold Rgtb in Hgt;
      destruct (Rlt_dec x y) as [Hlt|Hge]; try discriminate.
    + destruct (IH y) as (Hle & Hall & Hmem).
      split; [lra|]. split; [by constructor|].
      right. destruct Hmem as [->|Hmem]; [left | by right].
    + destruct (IH x) as (Hle & Hall & Hmem).
      split; [done|]. split; [constructor; [lra | done]|].
      destruct Hmem as [->|Hmem]; [by left | right; by right].
Qed.

Lemma fold_max_int (l : list Z) (x : Z) :
  let peak := fold_left (λ m item, if (item >? m)%Z then item else m) l x in
  (x <= peak)%Z ∧ Forall (λ y, (y <= peak)%Z) l ∧ (peak = x ∨ peak ∈ l).
Proof.
  revert x. induction l as [|y l IH]; intros x; cbn.
  - split; [lia|]. split; [constructor | by left].
  - destruct (Z.gtb_spec y x) as [Hlt|Hge].
    + destruct (IH y) as (Hle & Hall & Hmem).
      split; [lia|]. split; [by constructor|].
      right. destruct Hmem as [->|Hmem]; [left | by right].
    + destruct (IH x) as (Hle & Hall & Hmem).
      split; [done|]. split; [constructor; [lia | done]|].
      destruct Hmem as [->|Hmem]; [by left | right; by right].
Qed.

Lemma py_max_abs_real (data : list R) :
  data ≠ [] →
  ∃ peak,
    py_max fgt (map fabs data) = Ok peak
    ∧ Forall (λ x, Rabs x <= peak) data
    ∧ ∃ x, x ∈ data ∧ Rabs x = peak.
Proof.
  destruct data as [|x data]; [done|]. intros _. cbn [map py_max].
  eexists. split; [reflexivity|].
  cbn [fgt fabs real_scalar].
  destruct (fold_max_real (map Rabs data) (Rabs x)) as (Hle & Hall & Hmem).
  split.
  - constructor; [done|]. by apply Forall_map in Hall.
  - destruct Hmem as [->|Hmem]; [exists x; split; [left | done]|].
    apply list_elem_of_In, in_map_iff in Hmem as (y & Heq & Hy).
    exists y. split; [right; by apply list_elem_of_In | done].
Qed.

Lemma abs16_in_range (z : Z) : (-32768 < z <= 32767)%Z → abs16 z = Z.abs z.
Proof. intros Hz. unfold abs16. apply wrap16_in_range. lia. Qed.

Lemma py_max_abs_int16 (data : list Z) :
  data ≠ [] →
  Forall (λ z, (-32768 < z <= 32767)%Z) data →
  ∃ peak,
    py_max Z.gtb (map abs16 data) = Ok peak
    ∧ Forall (λ z, (Z.abs z <= peak)%Z) data
    ∧ ∃ z, z ∈ data ∧ Z.abs z = peak.
Proof.
  intros Hne Hrange.
  assert (Habs : map abs16 data = map Z.abs data).
  { apply map_ext_Forall. eapply Forall_impl; [exact Hrange|].
    apply abs16_in_range. }
  rewrite Habs. destruct data as [|x data]; [done|]. cbn [map py_max].
  eexists. split; [reflexivity|].
  destruct (fold_max_int (map Z.abs data) (Z.abs x)) as (Hle & Hall & Hmem).
  split.
  - constructor; [done|]. by rewrite Forall_map in Hall.
  - destruct Hmem as [->|Hmem]; [exists x; split; [left | done]|].
    apply list_elem_of_In, in_map_iff in Hmem as (y & Heq & Hy).
    exists y. split; [right; by apply list_elem_of_In | done].
Qed.

Lemma scaled_sample_bound (x peak amplitude : R) :
  0 < peak → 0 <= amplitude → Rabs x <= peak →
  Rabs (x / peak * amplitude) <= amplitude.
Proof.
  intros Hpeak Hamp Hx.
  rewrite Rabs_mult, (Rabs_pos_eq amplitude) by done.
  unfold Rdiv. rewrite Rabs_mult, (Rabs_pos_eq (/ peak))
    by (apply Rlt_le, Rinv_0_lt_compat; done).
  assert (Hunit : Rabs x * / peak <= 1).
  { apply (Rmult_le_reg_r peak); [done|].
    rewrite Rmult_assoc, Rinv_l by lra. lra. }
  nra.
Qed.

Lemma scaled_sample_peak (x peak amplitude : R) :
  0 < peak → 0 <= amplitude → Rabs x = peak →
  Rabs (x / peak * amplitude) = amplitude.
Proof.
  intros Hpeak Hamp Hx.
  rewrite Rabs_mult, (Rabs_pos_eq amplitude) by done.
  unfold Rdiv. rewrite Rabs_mult, (Rabs_pos_eq (/ peak))
    by (apply Rlt_le, Rinv_0_lt_compat; done).
  rewrite Hx, Rinv_r by lra. lra.
Qed.

(** Peak normalization of a float64 buffer with a non-zero sample, over
    the reals: every sample is [x / max|w| * A], none exceeds the
    amplitude and one attains it. *)
Lemma normalize_wave_float64_peak self (data : list R) :
  (0 <= max_amplitude self)%Z →
  (∃ x, x ∈ data ∧ x ≠ 0) →
  ∃ peak,
    0 < peak
    ∧ Forall (λ x, Rabs x <= peak) data
    ∧ (∃ x, x ∈ data ∧ Rabs x = peak)
    ∧ normalize_wave self (float64_array data)
      = Ok (map (λ x, x / peak * IZR (max_amplitude self)) data)
    ∧ Forall (λ x, Rabs (x / peak * IZR (max_amplitude self))
                   <= IZR (max_amplitude self)) data
    ∧ ∃ x, x ∈ data
           ∧ Rabs (x / peak * IZR (max_amplitude self)) = IZR (max_amplitude self).
Proof.
  intros Hamp (x0 & Hx0 & Hnz). apply IZR_le in Hamp.
  destruct (py_max_abs_real data) as (peak & Hmax & Hall & x & Hx & Hpeak).
  { intros ->. by apply elem_of_nil in Hx0. }
  assert (Hpos : 0 < peak).
  { pose proof (proj1 (Forall_forall _ _) Hall x0 Hx0) as Hle.
    pose proof (Rabs_pos_lt x0 Hnz). lra. }
  exists peak. split; [done|]. split; [done|]. split; [by exists x|].
  split; [cbn [normalize_wave]; by rewrite Hmax|].
  split.
  - eapply Forall_impl; [exact Hall|]. intros y Hy.
    by apply scaled_sample_bound.
  - exists x. split; [done|]. by apply scaled_sample_peak.
Qed.

(** The same for an int16 buffer that has a non-zero sample and does not
    hold -32768. *)
Lemma normalize_wave_int16_peak self (data : list Z) :
  (0 <= max_amplitude self)%Z →
  Forall (λ z, (-32768 < z <= 32767)%Z) data →
  (∃ z, z ∈ data ∧ z ≠ 0%Z) →
  ∃ peak : Z,
    (0 < peak)%Z
    ∧ Forall (λ z, (Z.abs z <= peak)%Z) data
    ∧ (∃ z, z ∈ data ∧ Z.abs z = peak)
    ∧ normalize_wave self (int16_array data)
      = Ok (map (λ z, IZR z / IZR peak * IZR (max_amplitude self)) data)
    ∧ Forall (λ z, Rabs (IZR z / IZR peak * IZR (max_amplitude self))
                   <= IZR (max_amplitude self)) data
    ∧ ∃ z, z ∈ data
           ∧ Rabs (IZR z / IZR peak * IZR (max_amplitude self))
             = IZR (max_amplitude self).
Proof.
  intros Hamp Hrange (z0 & Hz0 & Hnz). apply IZR_le in Hamp.
  destruct (py_max_abs_int16 data) as (peak & Hmax & Hall & z & Hz & Hpeak);
    [|done|].
  { intros ->. by apply elem_of_nil in Hz0. }
  assert (Hpos : (0 < peak)%Z).
  { pose proof (proj1 (Forall_forall _ _) Hall z0 Hz0) as Hle.
    cbv beta in Hle. lia. }
  exists peak. split; [done|]. split; [done|]. split; [by exists z|].
  split; [cbn [normalize_wave]; by rewrite Hmax|].
  split.
  - eapply Forall_impl; [exact Hall|]. intros y Hy.
    apply scaled_sample_bound; [by apply IZR_lt | done|].
    rewrite <- abs_IZR. by apply IZR_le.
  - exists z. split; [done|].
    apply scaled_sample_peak; [by apply IZR_lt | done|].
    by rewrite <- abs_IZR, Hpeak.
Qed.

End PeakFacts.

(** ** The module run on binary64 *)

Example module_constants : SOUND_ARRAY_LEN = 220500 ∧ MAX_AMPLITUDE = 8192.
Proof. by vm_compute. Qed.

(** Five samples over one second: the endpoint is included. *)
Example init_binary64 :
  init (F := float) 5 1 MAX_AMPLITUDE
  = Ok {| sampling_rate := 5;
          duration_seconds := 1;
          max_amplitude := 8192;
          timeline := [0; 0.25; 0.5; 0.75; 1]%float |}.
Proof. by vm_compute. Qed.

(** One sample only: the timeline stops at 0. *)
Example init_single_sample_binary64 :
  timeline <$> init (F := float) 1 1 MAX_AMPLITUDE = Ok [0%float].
Proof. by vm_compute. Qed.

(** The literals of the table are the float64 values Python reads. *)
Example note_literals_binary64 :
  of_decimal (F := float) <$> NOTES !! "a4" = Some 440%float
  ∧ of_decimal (F := float) <$> NOTES !! "c4" = Some 0x1.05a0240b78034p+9%float
  ∧ of_decimal (F := float) <$> NOTES !! "0" = Some 0%float.
Proof. by vm_compute. Qed.

(** An int16 and a float64 buffer, each scaled to its own peak. *)
Example normalize_binary64 :
  normalize_sound_waves demo_factory64
    [int16_array [100; -200]; float64_array [3; -4]%float]
  = Ok [[4096; -8192]%float; [6144; -8192]%float].
Proof. by vm_compute. Qed.

(** test_normalize_sound_waves_invalid: a list among the arrays. *)
Example normalize_rejects_list :
  normalize_sound_waves demo_factory64 [int16_array [1; 2; 3]; pylist [4; 5; 6]]
  = Raise (ValueError "All elements in 'waves' must be numpy ndarray objects.").
Proof. by vm_compute. Qed.

(** An empty array has no peak; that failure is the one the handler wraps. *)
Example normalize_empty_array :
  normalize_sound_waves demo_factory64 [int16_array [100; -200]; int16_array []]
  = Raise (NormalizationError (ValueError "max() arg is an empty sequence")).
Proof. by vm_compute. Qed.

(** * Further properties of the module *)

(** ** Construction, for every number system *)

Section InitFacts.
Context {F : Type} `{Scalar F}.
Implicit Types (start stop : F) (num : Z).





End InitFacts.

(** ** Creating waves and the disk, for every number system *)

Lemma length_append (s1 s2 : string) :
  String.length (s1 +:+ s2) = (String.length s1 + String.length s2)%nat.
Proof. induction s1 as [|a s1 IH]; cbn; [done | by rewrite <- IH]. Qed.

Lemma append_inj_r (suffix s1 s2 : string) :
  s1 +:+ suffix = s2 +:+ suffix → s1 = s2.
Proof.
  intros Heq.
  assert (Hlen : String.length s1 = String.length s2).
  { apply (f_equal String.length) in Heq.
    rewrite !length_append in Heq. lia. }
  revert s2 Heq Hlen. induction s1 as [|a s1 IH]; intros [|b s2] Heq Hlen;
    try done.
  cbn in Heq, Hlen. injection Heq as -> Heq. f_equal. apply IH; [done | lia].
Qed.

Lemma wave_file_name_default_inj (note1 note2 : string) :
  wave_file_name note1 None = wave_file_name note2 None → note1 = note2.
Proof. apply append_inj_r. Qed.

Section DiskFacts.
Context {F : Type} `{Scalar F} `{Libm F}.
Implicit Types (self : SoundWaveFactory (F := F)) (d : disk).

(** Every way a call to [create_wave] can end. *)
Lemma create_wave_outcome write_fault self note name wave_type d :
  (NOTES !! note = None
   ∧ create_wave write_fault self note name wave_type d
     = (Raise (UnknownNoteError note), d))
  ∨ (is_Some (NOTES !! note) ∧ (wave_type ∉ wave_types)
     ∧ create_wave write_fault self note name wave_type d
       = (Raise (CreationError note InvalidWaveTypeError), d))
  ∨ (is_Some (NOTES !! note) ∧ wave_type ∈ wave_types
     ∧ ∃ msg, write_fault (wave_file_name note name) = Some msg
       ∧ create_wave write_fault self note name wave_type d
         = (Raise (CreationError note (OSError msg)), d))
  ∨ (is_Some (NOTES !! note) ∧ wave_type ∈ wave_types
     ∧ write_fault (wave_file_name note name) = None
     ∧ ∃ buffer,
         length buffer = length (timeline self)
         ∧ Forall (λ z, -32768 <= z <= 32767) buffer
         ∧ create_wave write_fault self note name wave_type d
           = (Ok buffer,
              <[wave_file_name note name :=
                  {| wav_rate := sampling_rate self; wav_data := buffer |}]> d)).
Proof.
  destruct (NOTES !! note) as [frequency|] eqn:Hnote.
  - right. destruct (decide (wave_type ∈ wave_types)) as [Hin|Hnot].
    + right.
      destruct (get_normed_wave_returns self (of_decimal frequency) _ Hin)
        as (wave & Hwave & Hlen).
      pose proof (create_wave_known write_fault self note name wave_type d _ _
                    Hnote Hwave) as Hrun.
      destruct (write_fault _) as [msg|] eqn:Hwrite.
      * left. split; [done|]. split; [done|]. by exists msg.
      * right. split; [done|]. split; [done|]. split; [done|].
        exists (map astype_int16 wave).
        split; [by rewrite length_map|]. split; [|done].
        apply Forall_map, Forall_forall. intros x _. apply wrap16_range.
    + left. split; [done|]. split; [done|].
      eapply create_wave_wraps; [done|]. by apply get_normed_wave_raises.
  - left. split; [done|]. by apply create_wave_unknown.
Qed.

(** X2: [create_wave] returns a buffer exactly when the note is a key of
    [NOTES], the wave type is one of the three and the encoder accepts the
    file. *)
Theorem create_wave_succeeds_iff write_fault self note name wave_type d :
  (∃ buffer, (create_wave write_fault self note name wave_type d).1 = Ok buffer)
  ↔ is_Some (NOTES !! note)
    ∧ wave_type ∈ wave_types
    ∧ write_fault (wave_file_name note name) = None.
Proof.
  destruct (create_wave_outcome write_fault self note name wave_type d)
    as [(Hnote & ->) | [(Hnote & Htype & ->) | [(Hnote & Htype & msg & Hwrite & ->)
       | (Hnote & Htype & Hwrite & buffer & _ & _ & ->)]]]; cbn [fst snd].
  - split; [by intros [? ?]|]. intros ([q Hq] & _). congruence.
  - split; [by intros [? ?]|]. by intros (_ & ? & _).
  - split; [by intros [? ?]|]. intros (_ & _ & Hnone). congruence.
  - split; [done|]. intros _. by exists buffer.
Qed.

(** X3: no call touches a file other than the one it is asked to write,
    and a call that is refused before the encoder is reached, for its note
    or for its wave type, leaves the disk as it found it. *)
Theorem create_wave_frame write_fault self note name wave_type d :
  (∀ file, file ≠ wave_file_name note name →
           (create_wave write_fault self note name wave_type d).2 !! file = d !! file)
  ∧ (NOTES !! note = None ∨ wave_type ∉ wave_types →
     (create_wave write_fault self note name wave_type d).2 = d).
Proof.
  destruct (create_wave_outcome write_fault self note name wave_type d)
    as [(_ & ->) | [(_ & _ & ->) | [(_ & _ & msg & _ & ->)
       | (Hnote & Htype & _ & buffer & _ & _ & ->)]]]; cbn [fst snd];
    split; try done.
  - intros file Hfile. by rewrite lookup_insert_ne.
  - intros [Hnone|Hnot]; [|done]. destruct Hnote as [q Hq]. congruence.
Qed.

(** X4: what a successful call returns is what it has stored: the file named
    after the note (or after [name]) holds the returned buffer at the
    configured sampling rate; the buffer has one int16 sample per point
    of the timeline. *)
Theorem create_wave_stores_buffer write_fault self note name wave_type d buffer :
  (create_wave write_fault self note name wave_type d).1 = Ok buffer →
  (create_wave write_fault self note name wave_type d).2
    !! wave_file_name note name
  = Some {| wav_rate := sampling_rate self; wav_data := buffer |}
  ∧ length buffer = length (timeline self)
  ∧ Forall (λ z, -32768 <= z <= 32767) buffer.
Proof.
  destruct (create_wave_outcome write_fault self note name wave_type d)
    as [(_ & ->) | [(_ & _ & ->) | [(_ & _ & msg & _ & ->)
       | (_ & _ & _ & buffer' & Hlen & Hrange & ->)]]]; cbn; try done.
  intros [= <-]. by rewrite lookup_insert_eq.
Qed.

(** X5: two notes created one after the other under their default names do
    not overwrite each other: both files are on disk afterwards, each with
    its own buffer. *)
Theorem create_wave_distinct_notes write_fault self note1 note2 type1 type2 d
    buffer1 buffer2 :
  note1 ≠ note2 →
  (create_wave write_fault self note1 None type1 d).1 = Ok buffer1 →
  (create_wave write_fault self note2 None type2
     (create_wave write_fault self note1 None type1 d).2).1 = Ok buffer2 →
  (create_wave write_fault self note2 None type2
     (create_wave write_fault self note1 None type1 d).2).2
    !! wave_file_name note1 None
  = Some {| wav_rate := sampling_rate self; wav_data := buffer1 |}
  ∧ (create_wave write_fault self note2 None type2
       (create_wave write_fault self note1 None type1 d).2).2
      !! wave_file_name note2 None
    = Some {| wav_rate := sampling_rate self; wav_data := buffer2 |}.
Proof.
  intros Hne Hfirst Hsecond.
  set (d1 := (create_wave write_fault self note1 None type1 d).2) in *.
  assert (Hd1 : d1 !! wave_file_name note1 None
                = Some {| wav_rate := sampling_rate self; wav_data := buffer1 |}).
  { unfold d1.
    destruct (create_wave_outcome write_fault self note1 None type1 d)
      as [(_ & Hrun) | [(_ & _ & Hrun) | [(_ & _ & msg & _ & Hrun)
         | (_ & _ & _ & buffer & _ & _ & Hrun)]]];
      rewrite Hrun in Hfirst |- *; cbn in *; try done.
    injection Hfirst as <-. by rewrite lookup_insert_eq. }
  destruct (create_wave_outcome write_fault self note2 None type2 d1)
    as [(_ & Hrun) | [(_ & _ & Hrun) | [(_ & _ & msg & _ & Hrun)
       | (_ & _ & _ & buffer & _ & _ & Hrun)]]];
    rewrite Hrun in Hsecond |- *; cbn in *; try done.
  injection Hsecond as <-. split; [|by rewrite lookup_insert_eq].
  rewrite lookup_insert_ne; [done|].
  intros Heq. apply Hne. symmetry. by apply wave_file_name_default_inj.
Qed.

End DiskFacts.

Lemma create_wave_stores_buffer_witness :
  ∃ buffer,
    (create_wave writable demo_factory "a4" None "sin" ∅).1 = Ok buffer
    ∧ (create_wave writable demo_factory "a4" None "sin" ∅).2 !! "a4_wave.wav"
      = Some {| wav_rate := 2; wav_data := buffer |}.
Proof.
  eexists. split; [reflexivity|].
  exact (proj1 (create_wave_stores_buffer writable demo_factory "a4" None "sin" ∅
                  _ eq_refl)).
Defined.

Lemma create_wave_distinct_notes_witness :
  ∃ buffer1 buffer2,
    "a4" ≠ "c4"
    ∧ (create_wave writable demo_factory "a4" None "sin" ∅).1 = Ok buffer1
    ∧ (create_wave writable demo_factory "c4" None "square"
         (create_wave writable demo_factory "a4" None "sin" ∅).2).1 = Ok buffer2
    ∧ (create_wave writable demo_factory "c4" None "square"
         (create_wave writable demo_factory "a4" None "sin" ∅).2).2 !! "a4_wave.wav"
      = Some {| wav_rate := 2; wav_data := buffer1 |}.
Proof.
  assert (Hne : "a4" ≠ "c4") by discriminate.
  eexists _, _. split; [exact Hne|]. split; [reflexivity|]. split; [reflexivity|].
  exact (proj1 (create_wave_distinct_notes writable demo_factory "a4" "c4"
                  "sin" "square" ∅ _ _ Hne eq_refl eq_refl)).
Defined.

(** ** Normalization, for every number system *)

Section NormalizeShape.
Context {F : Type} `{Scalar F}.
Implicit Types (self : SoundWaveFactory (F := F)) (wave : pyobject F)
  (waves : list (pyobject F)).

Lemma mapM_app_eq {A B} (f : A → result B) (l1 l2 : list A) :
  mapM f (l1 ++ l2)%list
  = (ys1 ← mapM f l1; ys2 ← mapM f l2; Ok (ys1 ++ ys2)%list).
Proof.
  induction l1 as [|x l1 IH]; cbn.
  - by destruct (mapM f l2).
  - rewrite IH. destruct (f x); cbn; [|done].
    destruct (mapM f l1); cbn; [|done]. by destruct (mapM f l2).
Qed.

Lemma mapM_app {A B} (f : A → result B) (l1 l2 : list A) (ys : list B) :
  mapM f (l1 ++ l2)%list = Ok ys
  ↔ ∃ ys1 ys2, ys = (ys1 ++ ys2)%list ∧ mapM f l1 = Ok ys1 ∧ mapM f l2 = Ok ys2.
Proof.
  rewrite mapM_app_eq.
  destruct (mapM f l1) as [ys1|]; cbn; [destruct (mapM f l2) as [ys2|]; cbn|].
  - split; [intros [= <-]; by exists ys1, ys2|].
    by intros (zs1 & zs2 & -> & [= <-] & [= <-]).
  - split; [done|]. by intros (? & ? & _ & _ & ?).
  - split; [done|]. by intros (? & ? & _ & ? & _).
Qed.

Lemma mapM_Forall2 {A B} (f : A → result B) (l : list A) (ys : list B) :
  mapM f l = Ok ys ↔ Forall2 (λ x y, f x = Ok y) l ys.
Proof.
  revert ys. induction l as [|x l IH]; intros ys; cbn.
  - split; [intros [= <-]; constructor | by inversion 1].
  - split.
    + destruct (f x) as [y|e] eqn:Hx; cbn; [|done].
      destruct (mapM f l) as [ys'|e] eqn:Hl; cbn; [|done].
      intros [= <-]. constructor; [done | by apply IH].
    + inversion 1 as [|? y ? ys' Hx Hl]; subst. rewrite Hx. cbn.
      apply IH in Hl. by rewrite Hl.
Qed.

Lemma mapM_raises {A B} (f : A → result B) (l : list A) (e : exn) :
  Forall (λ x, f x = Raise e ∨ ∃ y, f x = Ok y) l →
  Exists (λ x, f x = Raise e) l →
  mapM f l = Raise e.
Proof.
  induction 1 as [|x l Hx Hl IH]; intros Hex; [by inversion Hex|]. cbn.
  destruct Hx as [->|[y Hy]]; [done|]. rewrite Hy. cbn.
  inversion Hex as [? ? Hbad|? ? Hbad]; subst; [congruence|].
  by rewrite (IH Hbad).
Qed.

Lemma normalize_sound_waves_Ok self waves out :
  normalize_sound_waves self waves = Ok out
  ↔ forallb isinstance_ndarray waves = true
    ∧ mapM (normalize_wave self) waves = Ok out.
Proof.
  unfold normalize_sound_waves.
  destruct (forallb isinstance_ndarray waves); cbn [negb]; [|by split; [|intros []]].
  destruct (mapM (normalize_wave self) waves); cbn; by split; [|intros []].
Qed.

Lemma normalize_wave_Ok self wave out :
  isinstance_ndarray wave = true →
  normalize_wave self wave = Ok out →
  len wave ≠ 0%nat ∧ length out = len wave.
Proof.
  destruct wave as [data|data|items]; [| |done]; intros _;
    (destruct data; [done|]); cbn; intros [= <-];
    (split; [done|]); cbn; by rewrite length_map.
Qed.

Lemma normalize_wave_empty self wave :
  isinstance_ndarray wave = true →
  len wave = 0%nat →
  normalize_wave self wave = Raise (ValueError "max() arg is an empty sequence").
Proof. by destruct wave as [[|]|[|]|]. Qed.

(** X6: validation comes first and is all or nothing: one element that is
    not an array makes the whole call raise the validation error, wherever
    it stands and whatever the arrays around it hold. *)
Theorem normalize_validation_first self waves :
  Exists (λ wave, isinstance_ndarray wave = false) waves →
  normalize_sound_waves self waves
  = Raise (ValueError "All elements in 'waves' must be numpy ndarray objects.").
Proof.
  intros Hex. unfold normalize_sound_waves.
  destruct (forallb isinstance_ndarray waves) eqn:Hall; [|done].
  apply List.Exists_exists in Hex as (wave & Hin & Hbad).
  rewrite forallb_forall in Hall. specialize (Hall wave Hin). congruence.
Qed.

(** X7: among arrays, one empty array makes the whole call raise the wrapped
    error of [max], even when the other buffers could be normalized. *)
Theorem normalize_empty_array_raises self waves :
  Forall (λ wave, isinstance_ndarray wave = true) waves →
  Exists (λ wave, len wave = 0%nat) waves →
  ∃ msg,
    py_max Z.gtb [] = Raise (ValueError msg)
    ∧ normalize_sound_waves self waves
      = Raise (RuntimeError ("Error normalizing sound waves: " +:+ msg)).
Proof.
  intros Hall Hex. eexists. split; [reflexivity|]. unfold normalize_sound_waves.
  rewrite (proj2 (forallb_forall _ _)); cbn [negb].
  - rewrite (mapM_raises _ _ (ValueError "max() arg is an empty sequence")); [done| |].
    + eapply Forall_impl; [exact Hall|]. intros wave Harray.
      destruct (decide (len wave = 0%nat)) as [Hlen|Hlen].
      * left. by apply normalize_wave_empty.
      * right. apply normalize_wave_returns.
        destruct wave as [[|]|[|]|]; done.
    + apply List.Exists_exists in Hex as (wave & Hin & Hlen).
      apply List.Exists_exists. exists wave. split; [done|].
      apply normalize_wave_empty; [|done].
      by apply (proj1 (List.Forall_forall _ _) Hall).
  - intros wave Hin. by apply (proj1 (List.Forall_forall _ _) Hall).
Qed.

(** X8: whatever [normalize_sound_waves] returns has the shape of its input:
    one buffer per array, each as long as the array it comes from; and it
    only returns when every element is an array with at least one
    sample. *)
Theorem normalize_shape self waves out :
  normalize_sound_waves self waves = Ok out →
  Forall2 (λ wave buffer,
             isinstance_ndarray wave = true
             ∧ len wave ≠ 0%nat
             ∧ length buffer = len wave)
          waves out.
Proof.
  intros Hrun. apply normalize_sound_waves_Ok in Hrun as [Hall Hrun].
  apply mapM_Forall2 in Hrun. rewrite forallb_forall in Hall.
  induction Hrun as [|wave buffer waves out Hwave _ IH]; constructor.
  - assert (Harray : isinstance_ndarray wave = true) by (apply Hall; by left).
    split; [done|]. by eapply normalize_wave_Ok.
  - apply IH. intros w Hw. apply Hall. by right.
Qed.

(** X9: the buffers are normalized independently: a list of waves is
    normalized exactly when its two halves are, and the result is the two
    results one after the other. *)
Theorem normalize_app self waves1 waves2 out :
  normalize_sound_waves self (waves1 ++ waves2)%list = Ok out
  ↔ ∃ out1 out2,
      out = (out1 ++ out2)%list
      ∧ normalize_sound_waves self waves1 = Ok out1
      ∧ normalize_sound_waves self waves2 = Ok out2.
Proof.
  rewrite normalize_sound_waves_Ok, forallb_app, andb_true_iff, mapM_app.
  split.
  - intros ([Hall1 Hall2] & out1 & out2 & -> & Hrun1 & Hrun2).
    exists out1, out2. by rewrite !normalize_sound_waves_Ok.
  - intros (out1 & out2 & -> & Hrun1 & Hrun2).
    apply normalize_sound_waves_Ok in Hrun1 as [Hall1 Hrun1].
    apply normalize_sound_waves_Ok in Hrun2 as [Hall2 Hrun2].
    split; [done|]. by exists out1, out2.
Qed.

End NormalizeShape.

Lemma normalize_validation_first_witness :
  Exists (λ wave, isinstance_ndarray wave = false)
         [int16_array (F := float) []; pylist [4; 5; 6]]
  ∧ normalize_sound_waves demo_factory64 [int16_array []; pylist [4; 5; 6]]
    = Raise (ValueError "All elements in 'waves' must be numpy ndarray objects.").
Proof.
  assert (Hex : Exists (λ wave, isinstance_ndarray wave = false)
                       [int16_array (F := float) []; pylist [4; 5; 6]])
    by (right; left; reflexivity).
  split; [exact Hex|].
  exact (normalize_validation_first demo_factory64 _ Hex).
Defined.

Lemma normalize_empty_array_raises_witness :
  Forall (λ wave, isinstance_ndarray wave = true)
         [int16_array (F := float) [100; -200]; float64_array []]
  ∧ Exists (λ wave, len wave = 0%nat)
           [int16_array (F := float) [100; -200]; float64_array []]
  ∧ ∃ msg,
      normalize_sound_waves demo_factory64 [int16_array [100; -200]; float64_array []]
      = Raise (RuntimeError ("Error normalizing sound waves: " +:+ msg)).
Proof.
  assert (Hall : Forall (λ wave, isinstance_ndarray wave = true)
                   [int16_array (F := float) [100; -200]; float64_array []])
    by (repeat constructor).
  assert (Hex : Exists (λ wave, len wave = 0%nat)
                  [int16_array (F := float) [100; -200]; float64_array []])
    by (right; left; reflexivity).
  split; [exact Hall|]. split; [exact Hex|].
  destruct (normalize_empty_array_raises demo_factory64 _ Hall Hex)
    as (msg & _ & Hrun).
  exact (ex_intro _ msg Hrun).
Defined.

Lemma normalize_shape_witness :
  normalize_sound_waves demo_factory64
    [int16_array [100; -200]; float64_array [3; -4]%float]
  = Ok [[4096; -8192]%float; [6144; -8192]%float]
  ∧ Forall2 (λ wave buffer,
               isinstance_ndarray wave = true
               ∧ len wave ≠ 0%nat
               ∧ length buffer = len wave)
            [int16_array [100; -200]; float64_array [3; -4]%float]
            [[4096; -8192]%float; [6144; -8192]%float].
Proof.
  assert (Hrun : normalize_sound_waves demo_factory64
                   [int16_array [100; -200]; float64_array [3; -4]%float]
                 = Ok [[4096; -8192]%float; [6144; -8192]%float])
    by (vm_compute; reflexivity).
  split; [exact Hrun|].
  exact (normalize_shape demo_factory64 _ _ Hrun).
Defined.

(** ** Waves over the real numbers *)

Section CreateFacts.
Context {F : Type} `{Scalar F} `{Libm F}.

(** What a returned buffer is made of. *)
Lemma create_wave_Ok_inv write_fault (self : SoundWaveFactory (F := F))
    note name wave_type (d : disk) buffer :
  (create_wave write_fault self note name wave_type d).1 = Ok buffer →
  ∃ frequency wave,
    NOTES !! note = Some frequency
    ∧ wave_type ∈ wave_types
    ∧ write_fault (wave_file_name note name) = None
    ∧ get_normed_wave self (of_decimal frequency) wave_type = Ok wave
    ∧ buffer = map astype_int16 wave.
Proof.
  intros Hrun. destruct (NOTES !! note) as [frequency|] eqn:Hnote.
  - destruct (get_normed_wave self (of_decimal frequency) wave_type) as [wave|e]
      eqn:Hwave.
    + rewrite (create_wave_known _ _ _ _ _ _ _ _ Hnote Hwave) in Hrun.
      destruct (write_fault _) eqn:Hwrite; [done|]. injection Hrun as <-.
      exists frequency, wave. repeat split; try done.
      destruct (decide (wave_type ∈ wave_types)) as [|Hnot]; [done|].
      by rewrite (get_normed_wave_raises _ _ _ Hnot) in Hwave.
    + by rewrite (create_wave_wraps _ _ _ _ _ _ _ _ Hnote Hwave) in Hrun.
  - by rewrite (create_wave_unknown _ _ _ _ _ _ Hnote) in Hrun.
Qed.

End CreateFacts.

Section RealWaves.
Implicit Types (self : SoundWaveFactory (F := R)) (x t frequency : R) (d : disk).
Open Scope R_scope.

Lemma sine_sample_bound (a : Z) x : (0 <= a)%Z → Rabs (IZR a * sin x) <= IZR a.
Proof.
  intros Ha. apply IZR_le in Ha. rewrite Rabs_mult, (Rabs_pos_eq _ Ha).
  pose proof (sin_abs_bound x). nra.
Qed.

Lemma square_sample_bound (a : Z) x : (0 <= a)%Z → Rabs (IZR a * sgn x) <= IZR a.
Proof.
  intros Ha. apply IZR_le in Ha. rewrite Rabs_mult, (Rabs_pos_eq _ Ha).
  pose proof (sgn_bound x). nra.
Qed.

Lemma triangle_sample_bound (a : Z) x :
  (0 <= a)%Z → Rabs (IZR a * (2 / PI) * asin x) <= IZR a.
Proof.
  intros Ha. apply IZR_le in Ha. pose proof PI_RGT_0 as Hpi.
  assert (Hc : 0 <= 2 / PI) by (apply Rlt_le, Rdiv_lt_0_compat; lra).
  rewrite !Rabs_mult, (Rabs_pos_eq _ Ha), (Rabs_pos_eq _ Hc).
  pose proof (asin_abs_bound x) as Hb.
  replace (IZR a) with (IZR a * (2 / PI) * (PI / 2)) at 2 by (field; lra).
  apply Rmult_le_compat_l; [nra | done].
Qed.

Lemma get_normed_wave_within self frequency wave_type wave :
  (0 <= max_amplitude self)%Z →
  get_normed_wave self frequency wave_type = Ok wave →
  Forall (λ x, Rabs x <= IZR (max_amplitude self)) wave.
Proof.
  intros Hamp Hwave.
  destruct (decide (wave_type ∈ wave_types)) as [Hin|Hnot];
    [|by rewrite (get_normed_wave_raises _ _ _ Hnot) in Hwave].
  destruct (wave_type_cases _ Hin) as [-> | [-> | ->]].
  - rewrite get_normed_wave_sin in Hwave. injection Hwave as <-.
    apply Forall_map, Forall_forall. intros t _. by apply sine_sample_bound.
  - rewrite get_normed_wave_square in Hwave. injection Hwave as <-.
    apply Forall_map, Forall_forall. intros t _. by apply square_sample_bound.
  - rewrite get_normed_wave_triangle in Hwave. injection Hwave as <-.
    apply Forall_map, Forall_forall. intros t _. by apply triangle_sample_bound.
Qed.

Lemma Rtrunc_IZR (z : Z) : Rtrunc (IZR z) = z.
Proof.
  apply (truncation_unique (IZR z)); [apply Rtrunc_truncation|].
  unfold truncation. split; [lra|].
  replace (IZR z - IZR z) with 0 by ring. rewrite Rabs_R0. lra.
Qed.

Lemma Rtrunc_within x (a : Z) :
  Rabs x <= IZR a → (- a <= Rtrunc x <= a)%Z.
Proof.
  intros Hx. destruct (Rtrunc_truncation x) as [Hle _].
  assert (Hn : Rabs (IZR (Rtrunc x)) <= IZR a) by lra.
  rewrite <- abs_IZR in Hn. apply le_IZR in Hn. lia.
Qed.

Lemma astype_int16_within x (a : Z) :
  (a <= 32767)%Z → Rabs x <= IZR a →
  astype_int16 x = Rtrunc x ∧ (- a <= astype_int16 x <= a)%Z.
Proof.
  intros Ha Hx. pose proof (Rtrunc_within x a Hx) as Hz.
  unfold astype_int16. cbn [trunc real_scalar].
  rewrite wrap16_in_range by lia. done.
Qed.

Lemma map_const {A B} (f : A → B) (c : B) (l : list A) :
  (∀ item, f item = c) → map f l = repeat c (length l).
Proof. intros Hf. induction l; cbn; [done | by rewrite Hf, IHl]. Qed.

Lemma of_decimal_zero : of_decimal (F := R) 0%Q = 0.
Proof. unfold of_decimal. cbn. lra. Qed.

Lemma get_normed_wave_zero_frequency self wave_type :
  wave_type ∈ wave_types →
  get_normed_wave self 0 wave_type = Ok (repeat 0 (length (timeline self))).
Proof.
  intros Hin. destruct (wave_type_cases _ Hin) as [-> | [-> | ->]].
  - rewrite get_normed_wave_sin. f_equal. apply map_const. intros t.
    replace (2 * PI * 0 * t) with 0 by ring. rewrite sin_0. ring.
  - rewrite get_normed_wave_square. f_equal. apply map_const. intros t.
    replace (2 * PI * 0 * t) with 0 by ring. rewrite sin_0.
    unfold sgn. destruct (Rlt_dec 0 0); [lra|]. ring.
  - rewrite get_normed_wave_triangle. f_equal. apply map_const. intros t.
    replace (2 * PI * 0 * t) with 0 by ring. rewrite sin_0, asin_0. ring.
Qed.

(** X10: the rest note "0" has frequency 0 and gives silence: for each of the
    three wave types the buffer [create_wave] returns is all zeros, one
    per point of the timeline. *)
Theorem rest_note_is_silent write_fault self name wave_type d :
  wave_type ∈ wave_types →
  write_fault (wave_file_name "0" name) = None →
  (create_wave write_fault self "0" name wave_type d).1
  = Ok (repeat 0%Z (length (timeline self))).
Proof.
  intros Hin Hwrite.
  assert (Hnote : NOTES !! "0" = Some 0%Q) by (by vm_compute).
  pose proof (get_normed_wave_zero_frequency self _ Hin) as Hwave.
  rewrite <- of_decimal_zero in Hwave.
  rewrite (create_wave_known write_fault self "0" name wave_type d _ _ Hnote Hwave),
    Hwrite.
  cbn [fst]. f_equal. rewrite map_repeat. f_equal.
  unfold astype_int16. cbn [trunc real_scalar].
  by rewrite of_decimal_zero, Rtrunc_IZR.
Qed.

(** X11: a square wave takes three values only: the amplitude, its opposite,
    and 0 where the sine vanishes. *)
Theorem square_wave_levels self frequency wave :
  get_normed_wave self frequency "square" = Ok wave →
  Forall (λ x, x = IZR (max_amplitude self) ∨ x = 0
               ∨ x = - IZR (max_amplitude self)) wave.
Proof.
  rewrite get_normed_wave_square. intros [= <-].
  apply Forall_map, Forall_forall. intros t _. unfold sgn.
  destruct (Rlt_dec 0 _); [left; ring|].
  destruct (Rlt_dec _ 0); [right; right; ring | right; left; ring].
Qed.

(** X12: with an amplitude that int16 can hold, quantization neither wraps nor
    leaves the amplitude: every sample [create_wave] returns is the
    truncated synthesized sample and lies between [-max_amplitude] and
    [max_amplitude]. *)
Theorem create_wave_within_amplitude write_fault self note name wave_type d buffer :
  (0 <= max_amplitude self <= 32767)%Z →
  (create_wave write_fault self note name wave_type d).1 = Ok buffer →
  ∃ (q : Q) wave,
    NOTES !! note = Some q
    ∧ get_normed_wave self (of_decimal q) wave_type = Ok wave
    ∧ Forall2 (λ x z, z = Rtrunc x) wave buffer
    ∧ Forall (λ z, (- max_amplitude self <= z <= max_amplitude self)%Z) buffer.
Proof.
  intros [Hlow Hhigh] Hrun.
  apply create_wave_Ok_inv in Hrun
    as (q & wave & Hnote & _ & _ & Hwave & ->).
  pose proof (get_normed_wave_within self _ _ _ Hlow Hwave) as Hbound.
  exists q, wave. split; [done|]. split; [done|]. split.
  - clear Hwave. induction Hbound as [|x wave Hx _ IH]; cbn; constructor; [|done].
    by apply (astype_int16_within x (max_amplitude self)).
  - apply Forall_map. eapply Forall_impl; [exact Hbound|]. intros x Hx.
    by apply (astype_int16_within x (max_amplitude self)).
Qed.

Lemma init_real_timeline (rate duration amplitude : Z) :
  (2 <= rate * duration)%Z →
  ∃ self,
    init rate duration amplitude = Ok self
    ∧ length (timeline self) = Z.to_nat (rate * duration)
    ∧ ∀ i : nat, (i < Z.to_nat (rate * duration))%nat →
        timeline self !! i
        = Some (INR i * (IZR duration / IZR (rate * duration - 1))).
Proof.
  intros Htwo. unfold init. cbn [of_int real_scalar].
  assert (Hstop : IZR duration ≠ 0) by (apply not_0_IZR; nia).
  rewrite (linspace_many _ _ _ Htwo Hstop). eexists. split; [reflexivity|].
  cbn [timeline]. split; [by rewrite length_insert, length_map, length_seq|].
  intros i Hi.
  destruct (linspace_many_lookup 0 (IZR duration) _ i Htwo Hstop Hi)
    as (samples & Hrun & _ & Hlookup).
  rewrite (linspace_many _ _ _ Htwo Hstop) in Hrun. injection Hrun as <-.
  rewrite Hlookup. f_equal. unfold Rdiv. ring.
Qed.

Lemma init_real_head (rate duration amplitude : Z) self :
  (0 < rate * duration)%Z →
  init rate duration amplitude = Ok self →
  head (timeline self) = Some 0.
Proof.
  intros Hnum Hinit.
  destruct (decide (rate * duration = 1)%Z) as [Hone|Hmany].
  - unfold init in Hinit. rewrite Hone, linspace_single in Hinit.
    by injection Hinit as <-.
  - destruct (init_real_timeline rate duration amplitude) as (self' & Hinit' & _ & Hat);
      [lia|].
    rewrite Hinit in Hinit'. injection Hinit' as <-.
    rewrite head_lookup, Hat by lia. f_equal. cbn. lra.
Qed.

(** X13: every wave of a factory built by the constructor starts at zero:
    the timeline starts at 0, where the three shapes vanish, whatever the
    frequency. *)
Theorem wave_starts_at_zero (rate duration amplitude : Z) self frequency
    wave_type wave :
  (0 < rate * duration)%Z →
  init rate duration amplitude = Ok self →
  get_normed_wave self frequency wave_type = Ok wave →
  head wave = Some 0.
Proof.
  intros Hnum Hinit Hwave.
  pose proof (init_real_head _ _ _ _ Hnum Hinit) as Hhead.
  destruct (timeline self) as [|t0 rest] eqn:Htimeline; [done|].
  injection Hhead as ->.
  destruct (decide (wave_type ∈ wave_types)) as [Hin|Hnot];
    [|by rewrite (get_normed_wave_raises _ _ _ Hnot) in Hwave].
  destruct (wave_type_cases _ Hin) as [-> | [-> | ->]].
  - rewrite get_normed_wave_sin, Htimeline in Hwave. injection Hwave as <-.
    cbn. f_equal. replace (2 * PI * frequency * 0) with 0 by ring.
    rewrite sin_0. ring.
  - rewrite get_normed_wave_square, Htimeline in Hwave. injection Hwave as <-.
    cbn. f_equal. replace (2 * PI * frequency * 0) with 0 by ring.
    rewrite sin_0. unfold sgn. destruct (Rlt_dec 0 0); [lra|]. ring.
  - rewrite get_normed_wave_triangle, Htimeline in Hwave. injection Hwave as <-.
    cbn. f_equal. replace (2 * PI * frequency * 0) with 0 by ring.
    rewrite sin_0, asin_0. ring.
Qed.

(** X14: the timeline is not spaced by the sample period: with at least two
    samples, consecutive points are [duration / (N - 1)] apart, which is
    more than [1 / rate]; in particular the points strictly increase. *)
Theorem timeline_spacing (rate duration amplitude : Z) self :
  (0 < rate)%Z →
  (0 < duration)%Z →
  (2 <= rate * duration)%Z →
  init rate duration amplitude = Ok self →
  1 / IZR rate < IZR duration / IZR (rate * duration - 1)
  ∧ ∀ (i : nat) t t',
      timeline self !! i = Some t →
      timeline self !! S i = Some t' →
      t' - t = IZR duration / IZR (rate * duration - 1) ∧ t < t'.
Proof.
  intros Hrate Hduration Htwo Hinit.
  destruct (init_real_timeline rate duration amplitude Htwo)
    as (self' & Hinit' & Hlen & Hat).
  rewrite Hinit in Hinit'. injection Hinit' as <-.
  assert (Hr : 0 < IZR rate) by (by apply IZR_lt).
  assert (Hd : 0 < IZR duration) by (by apply IZR_lt).
  assert (Hn : 0 < IZR (rate * duration - 1)) by (apply IZR_lt; lia).
  assert (Hstep : 1 / IZR rate < IZR duration / IZR (rate * duration - 1)).
  { apply (Rmult_lt_reg_r (IZR rate * IZR (rate * duration - 1))); [nra|].
    replace (1 / IZR rate * (IZR rate * IZR (rate * duration - 1)))
      with (IZR (rate * duration - 1)) by (field; lra).
    replace (IZR duration / IZR (rate * duration - 1)
             * (IZR rate * IZR (rate * duration - 1)))
      with (IZR duration * IZR rate) by (field; lra).
    rewrite minus_IZR, mult_IZR. lra. }
  split; [done|]. intros i t t' Ht Ht'.
  assert (Hi : (S i < Z.to_nat (rate * duration))%nat).
  { rewrite <- Hlen. by eapply lookup_lt_Some. }
  rewrite Hat in Ht by lia. rewrite Hat in Ht' by done.
  injection Ht as <-. injection Ht' as <-.
  assert (Hpos : 0 < IZR duration / IZR (rate * duration - 1))
    by (by apply Rdiv_lt_0_compat).
  change (match i with 0%nat => 1 | S _ => INR i + 1 end) with (INR (S i)).
  rewrite S_INR. split; [ring | lra].
Qed.

End RealWaves.

(** ** Normalization over the real numbers *)

Section RealNormalize.
Implicit Types (self : SoundWaveFactory (F := R)).
Open Scope R_scope.

Lemma normalize_single self (wave : pyobject R) :
  isinstance_ndarray wave = true →
  normalize_sound_waves self [wave]
  = match normalize_wave self wave with
    | Ok out => Ok [out]
    | Raise e => Raise (NormalizationError e)
    end.
Proof.
  intros Harray. unfold normalize_sound_waves. cbn [forallb].
  rewrite Harray. cbn. by destruct (normalize_wave self wave).
Qed.

(** The peak [max] finds among the absolute values is determined by
    being an upper bound that is attained. *)
Lemma peak_unique (data : list R) (p q : R) :
  Forall (λ x, Rabs x <= p) data → (∃ x, x ∈ data ∧ Rabs x = p) →
  Forall (λ x, Rabs x <= q) data → (∃ x, x ∈ data ∧ Rabs x = q) →
  p = q.
Proof.
  intros Hp (x & Hx & <-) Hq (y & Hy & <-).
  pose proof (proj1 (Forall_forall _ _) Hp y Hy) as H1.
  pose proof (proj1 (Forall_forall _ _) Hq x Hx) as H2.
  cbv beta in H1, H2. lra.
Qed.

Lemma normalize_wave_float64_scaled self (data : list R) :
  (∃ x, x ∈ data ∧ x ≠ 0) →
  ∃ peak,
    0 < peak
    ∧ Forall (λ x, Rabs x <= peak) data
    ∧ (∃ x, x ∈ data ∧ Rabs x = peak)
    ∧ normalize_wave self (float64_array data)
      = Ok (map (λ x, x / peak * IZR (max_amplitude self)) data).
Proof.
  intros (x0 & Hx0 & Hnz).
  destruct (py_max_abs_real data) as (peak & Hmax & Hall & Hattained).
  { intros ->. by apply elem_of_nil in Hx0. }
  exists peak. split.
  - pose proof (proj1 (Forall_forall _ _) Hall x0 Hx0) as Hle. cbv beta in Hle.
    pose proof (Rabs_pos_lt x0 Hnz). lra.
  - split; [done|]. split; [done|]. cbn [normalize_wave]. by rewrite Hmax.
Qed.

(** X15: normalizing twice is normalizing once: a float64 buffer that comes
    out of the normalizer is returned unchanged when it is put in again.
    This needs a positive amplitude and a buffer that is not all zero. *)
Theorem normalize_idempotent self (data out : list R) :
  (0 < max_amplitude self)%Z →
  (∃ x, x ∈ data ∧ x ≠ 0) →
  normalize_sound_waves self [float64_array data] = Ok [out] →
  normalize_sound_waves self [float64_array out] = Ok [out].
Proof.
  intros Hamp Hnonzero Hrun. apply IZR_lt in Hamp.
  destruct (normalize_wave_float64_scaled self data Hnonzero)
    as (peak & Hpeak & Hall & (x1 & Hx1 & Hattained) & Hwave).
  rewrite normalize_single, Hwave in Hrun by done. injection Hrun as <-.
  set (scale := λ x, x / peak * IZR (max_amplitude self)).
  assert (Hbound : Forall (λ y, Rabs y <= IZR (max_amplitude self)) (map scale data)).
  { apply Forall_map. eapply Forall_impl; [exact Hall|]. intros x Hx.
    apply scaled_sample_bound; [done | lra | done]. }
  assert (Htop : ∃ y, y ∈ map scale data ∧ Rabs y = IZR (max_amplitude self)).
  { exists (scale x1). split.
    - apply list_elem_of_In, in_map. by apply list_elem_of_In.
    - apply scaled_sample_peak; [done | lra | done]. }
  destruct (normalize_wave_float64_scaled self (map scale data))
    as (peak' & _ & Hall' & Hattained' & Hwave').
  { destruct Htop as (y & Hy & Habs). exists y. split; [done|].
    intros ->. rewrite Rabs_R0 in Habs. lra. }
  assert (Hsame : peak' = IZR (max_amplitude self))
    by (by apply (peak_unique (map scale data))).
  rewrite normalize_single, Hwave', Hsame by done. do 2 f_equal.
  rewrite <- (map_id (map scale data)) at 2. apply map_ext.
  intros y. field. lra.
Qed.

(** X16: only the shape of a buffer matters, not its loudness: multiplying
    every sample by the same positive factor does not change what the
    normalizer returns. *)
Theorem normalize_scale_invariant self (data : list R) (c : R) :
  0 < c →
  (∃ x, x ∈ data ∧ x ≠ 0) →
  normalize_sound_waves self [float64_array (map (Rmult c) data)]
  = normalize_sound_waves self [float64_array data].
Proof.
  intros Hc Hnonzero.
  destruct (normalize_wave_float64_scaled self data Hnonzero)
    as (peak & Hpeak & Hall & (x1 & Hx1 & Hattained) & Hwave).
  destruct (normalize_wave_float64_scaled self (map (Rmult c) data))
    as (peak' & _ & Hall' & Hattained' & Hwave').
  { destruct Hnonzero as (x & Hx & Hnz). exists (c * x). split.
    - apply list_elem_of_In, in_map. by apply list_elem_of_In.
    - nra. }
  assert (Hsame : peak' = c * peak).
  { apply (peak_unique (map (Rmult c) data)); [done | done | |].
    - apply Forall_map. eapply Forall_impl; [exact Hall|]. intros x Hx.
      cbv beta. rewrite Rabs_mult, (Rabs_pos_eq c) by lra. nra.
    - exists (c * x1). split.
      + apply list_elem_of_In, in_map. by apply list_elem_of_In.
      + rewrite Rabs_mult, (Rabs_pos_eq c) by lra. by rewrite Hattained. }
  rewrite !normalize_single, Hwave, Hwave', Hsame by done. do 2 f_equal.
  rewrite map_map. apply map_ext. intros x. field. lra.
Qed.

Lemma fold_max_IZR (l : list Z) (z : Z) :
  IZR (fold_left (λ m item, if (item >? m)%Z then item else m) l z)
  = fold_left (λ m item, if Rgtb item m then item else m) (map IZR l) (IZR z).
Proof.
  revert z. induction l as [|y l IH]; intros z; cbn; [done|].
  assert (Hstep : (if Rgtb (IZR y) (IZR z) then IZR y else IZR z)
                  = IZR (if (y >? z)%Z then y else z)).
  { unfold Rgtb.
    destruct (Z.gtb_spec y z) as [Hlt|Hge];
      destruct (Rlt_dec (IZR z) (IZR y)) as [Hr|Hr]; try done.
    - exfalso. apply Hr. by apply IZR_lt.
    - apply lt_IZR in Hr. lia. }
  rewrite Hstep. apply IH.
Qed.

(** X17: the dtype does not matter for an int16 buffer that does not hold
    -32768: it is normalized (or rejected, when empty) exactly as the
    float64 buffer of the same values. *)
Theorem normalize_int16_as_float64 self (data : list Z) :
  Forall (λ z, (-32768 < z <= 32767)%Z) data →
  normalize_sound_waves self [int16_array data]
  = normalize_sound_waves self [float64_array (map IZR data)].
Proof.
  intros Hrange. rewrite !normalize_single by done. cbn [normalize_wave].
  assert (Habs : map abs16 data = map Z.abs data).
  { apply map_ext_Forall. eapply Forall_impl; [exact Hrange|].
    apply abs16_in_range. }
  rewrite Habs. destruct data as [|z data]; [done|].
  cbn [map py_max mbind result_bind fgt fabs fdiv fmul of_int real_scalar].
  rewrite <- abs_IZR.
  replace (map Rabs (map IZR data)) with (map IZR (map Z.abs data))
    by (rewrite !map_map; apply map_ext; intros; apply abs_IZR).
  rewrite <- fold_max_IZR.
  do 3 f_equal. by rewrite map_map.
Qed.

Lemma py_max_int (l : list Z) :
  l ≠ [] →
  ∃ peak, py_max Z.gtb l = Ok peak ∧ Forall (λ z, (z <= peak)%Z) l ∧ peak ∈ l.
Proof.
  destruct l as [|x l]; [done|]. intros _. cbn [py_max].
  destruct (fold_max_int l x) as (Hle & Hall & Hmem).
  eexists. split; [reflexivity|]. split; [by constructor|].
  destruct Hmem as [->|Hmem]; [left | by right].
Qed.

(** X18: what goes wrong with -32768: in an int16 buffer that holds it next
    to any other non-zero sample, the peak found is too small, and the
    buffer returned has a sample larger in magnitude than the amplitude. *)
Theorem normalize_int16_minimum_exceeds self (data : list Z) :
  (0 < max_amplitude self)%Z →
  (-32768)%Z ∈ data →
  (∃ z, z ∈ data ∧ z ≠ 0%Z ∧ (-32768 < z <= 32767)%Z) →
  ∃ out,
    normalize_sound_waves self [int16_array data] = Ok [out]
    ∧ ∃ y, y ∈ out ∧ IZR (max_amplitude self) < Rabs y.
Proof.
  intros Hamp Hmin (z & Hz & Hnz & Hrange). apply IZR_lt in Hamp.
  destruct (py_max_int (map abs16 data)) as (peak & Hmax & Hall & Hmem).
  { intros Hnil. apply map_eq_nil in Hnil. subst. by apply elem_of_nil in Hz. }
  assert (Hlow : (1 <= peak)%Z).
  { assert (Hin : abs16 z ∈ map abs16 data)
      by (apply list_elem_of_In, in_map; by apply list_elem_of_In).
    pose proof (proj1 (Forall_forall _ _) Hall _ Hin) as Hle. cbv beta in Hle.
    rewrite abs16_in_range in Hle by done. lia. }
  assert (Hhigh : (peak <= 32767)%Z).
  { apply list_elem_of_In, in_map_iff in Hmem as (w & <- & _). apply wrap16_range. }
  rewrite normalize_single by done. cbn [normalize_wave]. rewrite Hmax.
  cbn [mbind result_bind]. eexists. split; [reflexivity|].
  exists (IZR (-32768) / IZR peak * IZR (max_amplitude self)). split.
  - apply list_elem_of_In, in_map_iff. exists (-32768)%Z.
    split; [reflexivity | by apply list_elem_of_In].
  - apply IZR_le in Hlow, Hhigh.
    assert (Hpeak : 0 < IZR peak) by lra.
    rewrite Rabs_mult, (Rabs_pos_eq (IZR (max_amplitude self))) by lra.
    unfold Rdiv. rewrite Rabs_mult, (Rabs_pos_eq (/ IZR peak))
      by (apply Rlt_le, Rinv_0_lt_compat; done).
    replace (Rabs (IZR (-32768))) with 32768
      by (unfold Rabs; destruct (Rcase_abs _); lra).
    assert (Hratio : 1 < 32768 * / IZR peak).
    { apply (Rmult_lt_reg_r (IZR peak)); [done|].
      rewrite Rmult_assoc, Rinv_l by lra. lra. }
    nra.
Qed.

(** X19: a wave made by [create_wave] with an amplitude int16 can hold is
    always fit for the normalizer: it never contains -32768, so as soon
    as one of its samples is not zero, normalizing it yields a buffer
    whose largest magnitude is exactly the amplitude. *)
Theorem created_wave_normalizes write_fault self note name wave_type (d : disk)
    buffer :
  (0 <= max_amplitude self <= 32767)%Z →
  (create_wave write_fault self note name wave_type d).1 = Ok buffer →
  (∃ z, z ∈ buffer ∧ z ≠ 0%Z) →
  ∃ out,
    normalize_sound_waves self [int16_array buffer] = Ok [out]
    ∧ Forall (λ y, Rabs y <= IZR (max_amplitude self)) out
    ∧ ∃ y, y ∈ out ∧ Rabs y = IZR (max_amplitude self).
Proof.
  intros [Hlow Hhigh] Hrun Hnonzero.
  apply create_wave_Ok_inv in Hrun
    as (frequency & wave & _ & _ & _ & Hwave & ->).
  pose proof (get_normed_wave_within self _ _ _ Hlow Hwave) as Hbound.
  assert (Hrange : Forall (λ z, (-32768 < z <= 32767)%Z) (map astype_int16 wave)).
  { apply Forall_map. eapply Forall_impl; [exact Hbound|]. intros x Hx.
    destruct (astype_int16_within x (max_amplitude self) Hhigh Hx) as [_ Hz].
    cbv beta. lia. }
  destruct (normalize_wave_int16_peak self _ Hlow Hrange Hnonzero)
    as (peak & _ & _ & _ & Hnorm & Hall & (z & Hz & Htop)).
  rewrite normalize_single, Hnorm by done. eexists. split; [reflexivity|].
  split; [by apply Forall_map|].
  eexists. split; [|exact Htop].
  apply list_elem_of_In, in_map_iff. exists z.
  split; [reflexivity | by apply list_elem_of_In].
Qed.

End RealNormalize.

(** ** The properties above at concrete inputs *)

(** On [quarter_factory] the note "a0" is sampled at its zero and at its
    crest. *)
Lemma quarter_wave_buffer :
  (create_wave writable quarter_factory "a0" None "sin" ∅).1 = Ok [0; 8192].
Proof.
  assert (Hnote : NOTES !! "a0" = Some 27.50000%Q) by (by vm_compute).
  assert (Hwave : get_normed_wave quarter_factory (of_decimal 27.50000%Q) "sin"
                  = Ok [IZR 0; IZR 8192]).
  { rewrite get_normed_wave_sin. cbn [map timeline quarter_factory max_amplitude].
    change MAX_AMPLITUDE with 8192. unfold of_decimal.
    cbn [Qnum Qden fdiv of_int real_scalar]. do 2 f_equal.
    - replace (2 * PI * (2750000 / 100000) * 0)%R with 0%R by field.
      rewrite sin_0. ring.
    - f_equal.
      replace (2 * PI * (2750000 / 100000) * (1 / 110))%R with (PI / 2)%R by field.
      rewrite sin_PI2. ring. }
  rewrite (create_wave_known writable quarter_factory "a0" None "sin" ∅ _ _
             Hnote Hwave).
  cbn [writable fst map]. unfold astype_int16. cbn [trunc real_scalar].
  by rewrite !Rtrunc_IZR.
Qed.

Lemma rest_note_is_silent_witness :
  "sin" ∈ wave_types
  ∧ writable (wave_file_name "0" None) = None
  ∧ (create_wave writable demo_factory "0" None "sin" ∅).1 = Ok [0; 0].
Proof.
  assert (Hin : "sin" ∈ wave_types) by (by apply (bool_decide_unpack _)).
  assert (Hwrite : writable (wave_file_name "0" None) = None) by reflexivity.
  split; [exact Hin|]. split; [exact Hwrite|].
  exact (rest_note_is_silent writable demo_factory None "sin" ∅ Hin Hwrite).
Defined.

Lemma square_wave_levels_witness :
  ∃ wave,
    get_normed_wave demo_factory 440%R "square" = Ok wave
    ∧ Forall (λ x, x = IZR (max_amplitude demo_factory) ∨ x = 0%R
                   ∨ x = (- IZR (max_amplitude demo_factory))%R) wave.
Proof.
  eexists. split; [reflexivity|].
  exact (square_wave_levels demo_factory 440%R _ eq_refl).
Defined.

Lemma create_wave_within_amplitude_witness :
  ∃ buffer,
    0 <= max_amplitude demo_factory <= 32767
    ∧ (create_wave writable demo_factory "a4" None "triangle" ∅).1 = Ok buffer
    ∧ Forall (λ z, - max_amplitude demo_factory <= z <= max_amplitude demo_factory)
             buffer.
Proof.
  assert (Hamp : 0 <= max_amplitude demo_factory <= 32767)
    by (split; vm_compute; discriminate).
  eexists. split; [exact Hamp|]. split; [reflexivity|].
  destruct (create_wave_within_amplitude writable demo_factory "a4" None "triangle"
              ∅ _ Hamp eq_refl) as (q & wave & _ & _ & _ & Hbound).
  exact Hbound.
Defined.

Lemma wave_starts_at_zero_witness :
  ∃ self wave,
    0 < 2 * 1
    ∧ init (F := R) 2 1 MAX_AMPLITUDE = Ok self
    ∧ get_normed_wave self 440%R "sin" = Ok wave
    ∧ head wave = Some 0%R.
Proof.
  assert (Hnum : 0 < 2 * 1) by reflexivity.
  eexists _, _. split; [exact Hnum|]. split; [reflexivity|]. split; [reflexivity|].
  exact (wave_starts_at_zero 2 1 MAX_AMPLITUDE _ 440%R "sin" _ Hnum eq_refl eq_refl).
Defined.

Lemma timeline_spacing_witness :
  ∃ self,
    0 < 2 ∧ 0 < 1 ∧ 2 <= 2 * 1
    ∧ init (F := R) 2 1 MAX_AMPLITUDE = Ok self
    ∧ (1 / IZR 2 < IZR 1 / IZR (2 * 1 - 1))%R.
Proof.
  assert (Hrate : 0 < 2) by reflexivity.
  assert (Hduration : 0 < 1) by reflexivity.
  assert (Htwo : 2 <= 2 * 1) by (vm_compute; discriminate).
  eexists. split; [exact Hrate|]. split; [exact Hduration|]. split; [exact Htwo|].
  split; [reflexivity|].
  exact (proj1 (timeline_spacing 2 1 MAX_AMPLITUDE _ Hrate Hduration Htwo eq_refl)).
Defined.

Lemma normalize_idempotent_witness :
  ∃ out,
    0 < max_amplitude demo_factory
    ∧ (∃ x : R, x ∈ [3%R; (-4)%R] ∧ x ≠ 0%R)
    ∧ normalize_sound_waves demo_factory [float64_array [3%R; (-4)%R]] = Ok [out]
    ∧ normalize_sound_waves demo_factory [float64_array out] = Ok [out].
Proof.
  assert (Hamp : 0 < max_amplitude demo_factory) by reflexivity.
  assert (Hnonzero : ∃ x : R, x ∈ [3%R; (-4)%R] ∧ x ≠ 0%R)
    by (exists 3%R; split; [left | lra]).
  eexists. split; [exact Hamp|]. split; [exact Hnonzero|]. split; [reflexivity|].
  exact (normalize_idempotent demo_factory _ _ Hamp Hnonzero eq_refl).
Defined.

Lemma normalize_scale_invariant_witness :
  (0 < 2)%R
  ∧ (∃ x : R, x ∈ [3%R; (-4)%R] ∧ x ≠ 0%R)
  ∧ normalize_sound_waves demo_factory [float64_array (map (Rmult 2) [3%R; (-4)%R])]
    = normalize_sound_waves demo_factory [float64_array [3%R; (-4)%R]].
Proof.
  assert (Hc : (0 < 2)%R) by lra.
  assert (Hnonzero : ∃ x : R, x ∈ [3%R; (-4)%R] ∧ x ≠ 0%R)
    by (exists 3%R; split; [left | lra]).
  split; [exact Hc|]. split; [exact Hnonzero|].
  exact (normalize_scale_invariant demo_factory _ 2%R Hc Hnonzero).
Defined.

Lemma normalize_int16_as_float64_witness :
  Forall (λ z, -32768 < z <= 32767) [100; -200]
  ∧ normalize_sound_waves demo_factory [int16_array [100; -200]]
    = normalize_sound_waves demo_factory [float64_array (map IZR [100; -200])].
Proof.
  assert (Hrange : Forall (λ z, -32768 < z <= 32767) [100; -200])
    by (repeat (constructor; [lia|]); constructor).
  split; [exact Hrange|].
  exact (normalize_int16_as_float64 demo_factory _ Hrange).
Defined.

Lemma normalize_int16_minimum_exceeds_witness :
  0 < max_amplitude demo_factory
  ∧ -32768 ∈ [-32768; 1]
  ∧ (∃ z, z ∈ [-32768; 1] ∧ z ≠ 0 ∧ -32768 < z <= 32767)
  ∧ ∃ out,
      normalize_sound_waves demo_factory [int16_array [-32768; 1]] = Ok [out]
      ∧ ∃ y, y ∈ out ∧ (IZR (max_amplitude demo_factory) < Rabs y)%R.
Proof.
  assert (Hamp : 0 < max_amplitude demo_factory) by reflexivity.
  assert (Hmin : -32768 ∈ [-32768; 1]) by left.
  assert (Hother : ∃ z, z ∈ [-32768; 1] ∧ z ≠ 0 ∧ -32768 < z <= 32767)
    by (exists 1; split; [right; left | split; [discriminate | lia]]).
  split; [exact Hamp|]. split; [exact Hmin|]. split; [exact Hother|].
  exact (normalize_int16_minimum_exceeds demo_factory _ Hamp Hmin Hother).
Defined.

Lemma created_wave_normalizes_witness :
  0 <= max_amplitude quarter_factory <= 32767
  ∧ (create_wave writable quarter_factory "a0" None "sin" ∅).1 = Ok [0; 8192]
  ∧ (∃ z, z ∈ [0; 8192] ∧ z ≠ 0)
  ∧ ∃ out,
      normalize_sound_waves quarter_factory [int16_array [0; 8192]] = Ok [out]
      ∧ Forall (λ y, (Rabs y <= IZR (max_amplitude quarter_factory))%R) out
      ∧ ∃ y, y ∈ out ∧ Rabs y = IZR (max_amplitude quarter_factory).
Proof.
  assert (Hamp : 0 <= max_amplitude quarter_factory <= 32767)
    by (split; vm_compute; discriminate).
  assert (Hnonzero : ∃ z, z ∈ [0; 8192] ∧ z ≠ 0)
    by (exists 8192; split; [right; left | discriminate]).
  split; [exact Hamp|]. split; [exact quarter_wave_buffer|]. split; [exact Hnonzero|].
  exact (created_wave_normalizes writable quarter_factory "a0" None "sin" ∅ _
           Hamp quarter_wave_buffer Hnonzero).
Defined.

(** ** The inspector *)

Lemma fold_max_Z (l : list Z) (x : Z) :
  let highest := fold_left Z.max l x in
  Forall (λ z, z <= highest) (x :: l) ∧ highest ∈ x :: l.
Proof.
  revert x. induction l as [|y l IH]; intros x; cbn.
  - split; [constructor; [lia | constructor] | left].
  - destruct (IH (Z.max x y)) as [Hall Hmem]. cbn in Hall, Hmem.
    apply Forall_cons in Hall as [Hle Hall]. split.
    + constructor; [lia|]. constructor; [lia | done].
    + apply elem_of_cons in Hmem as [->|Hmem]; [|right; by right].
      destruct (Z.max_spec x y) as [[_ ->]|[_ ->]]; [right; left | left].
Qed.

Lemma fold_min_Z (l : list Z) (x : Z) :
  let lowest := fold_left Z.min l x in
  Forall (λ z, lowest <= z) (x :: l) ∧ lowest ∈ x :: l.
Proof.
  revert x. induction l as [|y l IH]; intros x; cbn.
  - split; [constructor; [lia | constructor] | left].
  - destruct (IH (Z.min x y)) as [Hall Hmem]. cbn in Hall, Hmem.
    apply Forall_cons in Hall as [Hle Hall]. split.
    + constructor; [lia|]. constructor; [lia | done].
    + apply elem_of_cons in Hmem as [->|Hmem]; [|right; by right].
      destruct (Z.min_spec x y) as [[_ ->]|[_ ->]]; [left | right; left].
Qed.

Section InspectorFacts.
Context {F : Type} `{Scalar F}.
Implicit Types (wave : pyobject F) (stdout : list string).

(** X20: what is not an array, and an array without samples, is refused with
    a [ValueError], and nothing is printed. *)
Theorem print_wave_details_rejects (format_float : F → string) wave stdout :
  isinstance_ndarray wave = false ∨ len wave = 0%nat →
  ∃ msg,
    print_wave_details format_float wave stdout = (Raise (ValueError msg), stdout).
Proof.
  intros [Hlist|Hempty].
  - destruct wave; try done. by eexists.
  - destruct wave as [[|]|[|]|]; try done; by eexists.
Qed.

(** X21: for an int16 array with at least one sample exactly one text is
    printed, after what was printed before: the report of its length, of
    a largest and of a smallest sample, both taken from the array, in
    decimal. *)
Theorem print_wave_details_int16 (format_float : F → string) (data : list Z) stdout :
  data ≠ [] →
  ∃ highest lowest,
    print_wave_details format_float (int16_array data) stdout
    = (Ok (), (stdout ++ [wave_details (pretty (length data))
                                       (pretty highest) (pretty lowest)])%list)
    ∧ highest ∈ data
    ∧ lowest ∈ data
    ∧ Forall (λ z, lowest <= z <= highest) data.
Proof.
  destruct data as [|x data]; [done|]. intros _.
  destruct (fold_max_Z data x) as [Hmax Hhighest].
  destruct (fold_min_Z data x) as [Hmin Hlowest].
  exists (fold_left Z.max data x), (fold_left Z.min data x).
  split; [done|]. split; [done|]. split; [done|].
  apply Forall_forall. intros z Hz.
  pose proof (proj1 (Forall_forall _ _) Hmax z Hz).
  pose proof (proj1 (Forall_forall _ _) Hmin z Hz). done.
Qed.

End InspectorFacts.

Lemma print_wave_details_rejects_witness :
  (isinstance_ndarray (pylist (F := float) [1; 2; 3; 4]) = false
   ∨ len (pylist (F := float) [1; 2; 3; 4]) = 0%nat)
  ∧ ∃ msg,
      print_wave_details (λ _, "") (pylist (F := float) [1; 2; 3; 4]) ["earlier"]
      = (Raise (ValueError msg), ["earlier"]).
Proof.
  assert (Hbad : isinstance_ndarray (pylist (F := float) [1; 2; 3; 4]) = false
                 ∨ len (pylist (F := float) [1; 2; 3; 4]) = 0%nat)
    by (left; reflexivity).
  split; [exact Hbad|].
  exact (print_wave_details_rejects (λ _, "") _ ["earlier"] Hbad).
Defined.

Lemma print_wave_details_int16_witness :
  [100; -200; 8191] ≠ []
  ∧ ∃ highest lowest,
      print_wave_details (F := float) (λ _, "") (int16_array [100; -200; 8191]) []
      = (Ok (), [wave_details "3" (pretty highest) (pretty lowest)])
      ∧ highest ∈ [100; -200; 8191]
      ∧ lowest ∈ [100; -200; 8191]
      ∧ Forall (λ z, lowest <= z <= highest) [100; -200; 8191].
Proof.
  assert (Hdata : [100; -200; 8191] ≠ []) by discriminate.
  split; [exact Hdata|].
  exact (print_wave_details_int16 (F := float) (λ _, "") _ [] Hdata).
Defined.

(** test_print_wave_details_valid, on three samples. *)
Example print_wave_details_report :
  print_wave_details (F := float) (λ _, "") (int16_array [100; -200; 8191]) []
  = (Ok (), [wave_details "3" "8191" "-200"]).
Proof. by vm_compute. Qed.

(** ** The three shapes compared *)

Section RealShapes.
Implicit Types (self : SoundWaveFactory (F := R)) (t frequency : R).
Open Scope R_scope.

Lemma lookup_map {A B} (f : A → B) (l : list A) (i : nat) :
  map f l !! i = f <$> l !! i.
Proof. change map with (@fmap list _). apply list_lookup_fmap. Qed.

Lemma Forall2_map_map {A B C} (P : B → C → Prop) (f : A → B) (g : A → C)
    (l : list A) :
  (∀ item, P (f item) (g item)) → Forall2 P (map f l) (map g l).
Proof. intros Hfg. induction l; cbn; by constructor. Qed.



Lemma asin_sign (y : R) :
  -1 <= y <= 1 → sgn (asin y) = sgn y.
Proof.
  intros Hy. pose proof (asin_bound y) as Ha. pose proof (sin_asin y Hy) as Hs.
  pose proof PI_RGT_0 as Hpi. unfold sgn.
  destruct (Rlt_dec 0 y) as [Hpos|Hnpos].
  - destruct (Rlt_dec 0 (asin y)) as [|Hn]; [done|]. exfalso.
    destruct (Req_dec (asin y) 0) as [Hz|Hnz].
    + rewrite Hz, sin_0 in Hs. lra.
    + pose proof (sin_lt_0_var (asin y)). lra.
  - destruct (Rlt_dec y 0) as [Hneg|Hnneg].
    + destruct (Rlt_dec 0 (asin y)) as [Hp|Hnp].
      * exfalso. pose proof (sin_gt_0 (asin y)). lra.
      * destruct (Rlt_dec (asin y) 0) as [|Hn]; [done|]. exfalso.
        assert (Hz : asin y = 0) by lra. rewrite Hz, sin_0 in Hs. lra.
    + assert (Hzero : y = 0) by lra. subst y. rewrite asin_0.
      destruct (Rlt_dec 0 0); [lra|]. by destruct (Rlt_dec 0 0).
Qed.

Lemma sgn_scale (c y : R) : 0 < c → sgn (c * y) = sgn y.
Proof.
  intros Hc. unfold sgn.
  destruct (Rlt_dec 0 y), (Rlt_dec 0 (c * y)); try done; try (exfalso; nra).
  destruct (Rlt_dec y 0), (Rlt_dec (c * y) 0); try done; exfalso; nra.
Qed.

(** X23: for a positive amplitude the three shapes agree in sign at every
    point of the timeline, and the square wave is the amplitude times the
    sign of the sine wave. *)
Theorem waveforms_agree_in_sign self frequency (sine square triangle : list R) :
  (0 < max_amplitude self)%Z →
  get_normed_wave self frequency "sin" = Ok sine →
  get_normed_wave self frequency "square" = Ok square →
  get_normed_wave self frequency "triangle" = Ok triangle →
  Forall2 (λ s q, q = IZR (max_amplitude self) * sgn s) sine square
  ∧ Forall2 (λ s r, sgn r = sgn s) sine triangle.
Proof.
  intros Hamp. apply IZR_lt in Hamp.
  rewrite get_normed_wave_sin, get_normed_wave_square, get_normed_wave_triangle.
  intros [= <-] [= <-] [= <-]. pose proof PI_RGT_0 as Hpi. split.
  - apply Forall2_map_map. intros t. by rewrite sgn_scale.
  - apply Forall2_map_map. intros t.
    assert (Hscale : 0 < IZR (max_amplitude self) * (2 / PI))
      by (apply Rmult_lt_0_compat; [done|]; apply Rdiv_lt_0_compat; lra).
    rewrite (sgn_scale _ _ Hscale), (sgn_scale _ _ Hamp).
    apply asin_sign, SIN_bound.
Qed.

(** X24: within a quarter period of zero the triangle wave is the straight
    line of slope [4 * max_amplitude * frequency]. *)
Theorem triangle_wave_linear_segment self frequency wave (i : nat) t :
  get_normed_wave self frequency "triangle" = Ok wave →
  timeline self !! i = Some t →
  -1 / 4 <= frequency * t <= 1 / 4 →
  wave !! i = Some (4 * IZR (max_amplitude self) * frequency * t).
Proof.
  rewrite get_normed_wave_triangle. intros [= <-] Hi Hquarter.
  rewrite lookup_map, Hi. cbn. f_equal. pose proof PI_RGT_0 as Hpi.
  rewrite asin_sin by (split; nra). field. lra.
Qed.

End RealShapes.

(** ** The note table *)

(** X25: every note of the table has a frequency that is not negative and
    lies below half the default sampling rate; the only one with
    frequency 0 is the rest note "0". *)
Theorem notes_below_nyquist (note : string) (q : Q) :
  NOTES !! note = Some q →
  (0 <= q)%Q ∧ (q * 2 < inject_Z SAMPLING_RATE)%Q ∧ ((q == 0)%Q ↔ note = "0").
Proof.
  intros Hnote.
  assert (Hall : map_Forall (λ (k : string) (v : Q),
            (Qle_bool 0 v && negb (Qle_bool (inject_Z SAMPLING_RATE) (v * 2))
             && bool_decide (Qeq_bool v 0 = true ↔ k = "0")) = true) NOTES)
    by (apply (bool_decide_unpack _); by vm_compute).
  specialize (Hall note q Hnote). cbv beta in Hall.
  apply andb_true_iff in Hall as [Hall Hrest].
  apply andb_true_iff in Hall as [Hlow Hhigh].
  apply bool_decide_eq_true in Hrest. apply Qle_bool_iff in Hlow.
  split; [done|]. split.
  - apply Qnot_le_lt. intros Hle. apply Qle_bool_iff in Hle.
    by rewrite Hle in Hhigh.
  - by rewrite <- Qeq_bool_iff.
Qed.


Lemma waveforms_agree_in_sign_witness :
  ∃ sine square triangle,
    0 < max_amplitude demo_factory
    ∧ get_normed_wave demo_factory 440%R "sin" = Ok sine
    ∧ get_normed_wave demo_factory 440%R "square" = Ok square
    ∧ get_normed_wave demo_factory 440%R "triangle" = Ok triangle
    ∧ Forall2 (λ s q, q = (IZR (max_amplitude demo_factory) * sgn s)%R) sine square.
Proof.
  assert (Hamp : 0 < max_amplitude demo_factory) by reflexivity.
  eexists _, _, _. split; [exact Hamp|].
  split; [reflexivity|]. split; [reflexivity|]. split; [reflexivity|].
  exact (proj1 (waveforms_agree_in_sign demo_factory 440%R _ _ _ Hamp
                  eq_refl eq_refl eq_refl)).
Defined.

Lemma triangle_wave_linear_segment_witness :
  ∃ wave,
    get_normed_wave demo_factory (1 / 8)%R "triangle" = Ok wave
    ∧ timeline demo_factory !! 1%nat = Some 1%R
    ∧ (-1 / 4 <= 1 / 8 * 1 <= 1 / 4)%R
    ∧ wave !! 1%nat = Some (4 * IZR (max_amplitude demo_factory) * (1 / 8) * 1)%R.
Proof.
  assert (Hi : timeline demo_factory !! 1%nat = Some 1%R) by reflexivity.
  assert (Hquarter : (-1 / 4 <= 1 / 8 * 1 <= 1 / 4)%R) by lra.
  eexists. split; [reflexivity|]. split; [exact Hi|]. split; [exact Hquarter|].
  exact (triangle_wave_linear_segment demo_factory (1 / 8)%R _ 1 1%R
           eq_refl Hi Hquarter).
Defined.

Lemma notes_below_nyquist_witness :
  NOTES !! "a4" = Some 440.0000%Q
  ∧ (0 <= 440.0000)%Q
  ∧ (440.0000 * 2 < inject_Z SAMPLING_RATE)%Q.
Proof.
  assert (Hnote : NOTES !! "a4" = Some 440.0000%Q) by (vm_compute; reflexivity).
  split; [exact Hnote|].
  destruct (notes_below_nyquist "a4" _ Hnote) as (Hlow & Hhigh & _).
  exact (conj Hlow Hhigh).
Defined.
